(** * ls_compare: the listing parser and the difference engine of compare.py

    A shallow embedding of [PathParser.parse], [Comparer.parse],
    [Comparer.does_line_start_or_end_with_strings] and
    [Comparer.find_mismatched_left], together with the Python built-ins
    they call, followed by the properties of the specification.

    Conventions of the embedding.
    - A Python [str] is a Rocq [string]; the character of number [n]
      stands for the code point [n], so the strings covered are those
      whose code points are below 256.  Whitespace and lower-casing
      follow Python's tables on that range.
    - A Python [dict] is an association list in insertion order.
    - An exception is a value of [exn]; a call that may raise returns a
      [result].
    - [os.path] is [posixpath]: the separator is the slash. *)

From Stdlib Require Import List String Ascii Arith Bool Lia.
Import ListNotations.
Open Scope string_scope.
Open Scope list_scope.

(* ================================================================== *)
(** * Python built-ins *)
(* ================================================================== *)

Module Py.

(** ** Exceptions *)

Inductive exn : Type :=
| KeyError (key : string)
| IndexError
| AssertionError.

(** The name of the class of an exception, which is what an [except]
    clause of a caller tells exceptions apart by. *)
Definition exn_class (e : exn) : string :=
  match e with
  | KeyError _ => "KeyError"
  | IndexError => "IndexError"
  | AssertionError => "AssertionError"
  end.

Inductive result (A : Type) : Type :=
| Ok (a : A)
| Raise (e : exn).

Arguments Ok {A} a.
Arguments Raise {A} e.

Definition bind {A B : Type} (m : result A) (k : A -> result B) : result B :=
  match m with
  | Ok a => k a
  | Raise e => Raise e
  end.

(** [for x in xs: acc = body acc x], leaving the loop at the first
    exception. *)
Fixpoint for_each {A S : Type} (body : S -> A -> result S)
         (xs : list A) (acc : S) : result S :=
  match xs with
  | [] => Ok acc
  | x :: xs' => bind (body acc x) (for_each body xs')
  end.

(** ** str *)

Definition LF : string := String (ascii_of_nat 10) EmptyString.

(** [str.isspace] on one character, code points 0..255. *)
Definition isspace (c : ascii) : bool :=
  let n := nat_of_ascii c in
  (((9 <=? n) && (n <=? 13)) || ((28 <=? n) && (n <=? 32))
   || (n =? 133) || (n =? 160))%nat.

(** [c in chars] for a character. *)
Fixpoint char_in (chars : string) (c : ascii) : bool :=
  match chars with
  | EmptyString => false
  | String d chars' => Ascii.eqb c d || char_in chars' c
  end.

Fixpoint lstrip_by (p : ascii -> bool) (s : string) : string :=
  match s with
  | EmptyString => EmptyString
  | String c s' => if p c then lstrip_by p s' else s
  end.

Fixpoint rstrip_by (p : ascii -> bool) (s : string) : string :=
  match s with
  | EmptyString => EmptyString
  | String c s' =>
      match rstrip_by p s' with
      | EmptyString => if p c then EmptyString else String c EmptyString
      | r => String c r
      end
  end.

(** [s.rstrip()]: trailing whitespace removed. *)
Definition rstrip (s : string) : string := rstrip_by isspace s.

(** [s.lstrip(chars)] and [s.rstrip(chars)]: every leading (trailing)
    character that occurs in [chars] removed. *)
Definition lstrip_chars (chars s : string) : string :=
  lstrip_by (char_in chars) s.
Definition rstrip_chars (chars s : string) : string :=
  rstrip_by (char_in chars) s.

(** [s.startswith(x)] and [s.endswith(x)]. *)
Definition startswith (s x : string) : bool := String.prefix x s.

Fixpoint endswith (s x : string) : bool :=
  String.eqb s x ||
  match s with
  | EmptyString => false
  | String _ s' => endswith s' x
  end.

(** [s.split(sep)] for a separator of one character: never empty. *)
Fixpoint split (sep : ascii) (s : string) : list string :=
  match s with
  | EmptyString => [EmptyString]
  | String c s' =>
      if Ascii.eqb c sep then EmptyString :: split sep s'
      else match split sep s' with
           | [] => [String c EmptyString]
           | field :: fields => String c field :: fields
           end
  end.

(** [sep.join(parts)]. *)
Fixpoint join (sep : string) (parts : list string) : string :=
  match parts with
  | [] => EmptyString
  | [p] => p
  | p :: parts' => p ++ sep ++ join sep parts'
  end.

(** [xs[-1]]. *)
Fixpoint getitem_last {A : Type} (xs : list A) : result A :=
  match xs with
  | [] => Raise IndexError
  | [x] => Ok x
  | _ :: xs' => getitem_last xs'
  end.

(** [s[:n]] and [s[n:]] for [n >= 0]; an index past the end is clamped. *)
Fixpoint slice_to (n : nat) (s : string) : string :=
  match n, s with
  | S n', String c s' => String c (slice_to n' s')
  | _, _ => EmptyString
  end.

Fixpoint slice_from (n : nat) (s : string) : string :=
  match n, s with
  | S n', String _ s' => slice_from n' s'
  | _, _ => s
  end.

(** [s.rfind(c) + 1]: one past the last occurrence of [c], 0 when there
    is none ([rfind] answers -1 then). *)
Fixpoint rfind_succ (c : ascii) (s : string) : nat :=
  match s with
  | EmptyString => 0
  | String d s' =>
      match rfind_succ c s' with
      | 0 => if Ascii.eqb d c then 1 else 0
      | S i => S (S i)
      end
  end.

(** [c * n] for a character. *)
Fixpoint repeat_char (c : ascii) (n : nat) : string :=
  match n with
  | 0 => EmptyString
  | S n' => String c (repeat_char c n')
  end.

(** [str.lower] on one character, code points 0..255: A-Z and the
    capital letters of Latin-1 (0xC0-0xDE but the multiplication sign
    0xD7) move up by 32. *)
Definition lower_char (c : ascii) : ascii :=
  let n := nat_of_ascii c in
  if (((65 <=? n) && (n <=? 90))
      || ((192 <=? n) && (n <=? 222) && negb (n =? 215)))%nat
  then ascii_of_nat (n + 32) else c.

Fixpoint lower (s : string) : string :=
  match s with
  | EmptyString => EmptyString
  | String c s' => String (lower_char c) (lower s')
  end.

(** [x in xs] for a list of strings. *)
Definition str_in (x : string) (xs : list string) : bool :=
  existsb (String.eqb x) xs.

(** ** dict: keys in insertion order *)

Definition dict (V : Type) : Type := list (string * V).

Definition keys {V : Type} (d : dict V) : list string := map fst d.

Definition len {V : Type} (d : dict V) : nat := List.length d.

(** [k in d.keys()]. *)
Definition contains {V : Type} (d : dict V) (k : string) : bool :=
  str_in k (keys d).

Fixpoint lookup {V : Type} (d : dict V) (k : string) : option V :=
  match d with
  | [] => None
  | (k', v) :: d' => if String.eqb k k' then Some v else lookup d' k
  end.

(** [d[k]]. *)
Definition getitem {V : Type} (d : dict V) (k : string) : result V :=
  match lookup d k with
  | Some v => Ok v
  | None => Raise (KeyError k)
  end.

(** [d[k] = v]: an existing key keeps its place, a new one goes last. *)
Fixpoint setitem {V : Type} (d : dict V) (k : string) (v : V) : dict V :=
  match d with
  | [] => [(k, v)]
  | (k', v') :: d' =>
      if String.eqb k k' then (k', v) :: d' else (k', v') :: setitem d' k v
  end.

(** Every key occurs once: what a Python dict guarantees. *)
Fixpoint distinct (ks : list string) : bool :=
  match ks with
  | [] => true
  | k :: ks' => negb (str_in k ks') && distinct ks'
  end.

Definition wf {V : Type} (d : dict V) : Prop := distinct (keys d) = true.

End Py.

Notation "x <- m ;; k" := (Py.bind m (fun x => k))
  (at level 61, m at next level, right associativity).
Notation "' pat <- m ;; k" := (Py.bind m (fun x => match x with pat => k end))
  (at level 61, pat pattern, m at next level, right associativity).

(* ================================================================== *)
(** * posixpath.split *)
(* ================================================================== *)

Module PosixPath.

Definition sep : string := "/".

(** [[
    i = p.rfind(sep) + 1
    head, tail = p[:i], p[i:]
    if head and head != sep*len(head):
        head = head.rstrip(sep)
    return head, tail
    ]] *)
Definition split (p : string) : string * string :=
  let i := Py.rfind_succ "/"%char p in
  let head := Py.slice_to i p in
  let tail := Py.slice_from i p in
  let head :=
    if negb (String.eqb head EmptyString)
       && negb (String.eqb head (Py.repeat_char "/"%char (String.length head)))
    then Py.rstrip_chars sep head else head in
  (head, tail).

End PosixPath.

(* ================================================================== *)
(** * tools.ProgressBar *)
(* ================================================================== *)

Module ProgressBar.

(** Of the progress bar only what can change the outcome of a caller is
    kept: the constructor's [assert maximum > minimum].  [next] and
    [finish] write to the console and never raise once the constructor
    has returned. *)
Definition init (maximum minimum : nat) : Py.result unit :=
  if (minimum <? maximum)%nat then Py.Ok tt
  else Py.Raise Py.AssertionError.

End ProgressBar.

(* ================================================================== *)
(** * class PathParser *)
(* ================================================================== *)

Module PathParser.

Record t : Type := { _base_path : option string }.

(** [PathParser()]: the class attribute [_base_path = None]. *)
Definition new : t := {| _base_path := None |}.

(** [[
    if self._base_path is None:
        self._base_path = sep.join(split(path)[:-1]).lstrip('/')
    return path[len(self._base_path) + 1:]
    ]]
    The result is paired with the instance after the call. *)
Definition parse (self : t) (path : string) : Py.result (string * t) :=
  let base_path :=
    match _base_path self with
    | None =>
        let (head, tail) := PosixPath.split path in
        Py.lstrip_chars "/" (Py.join PosixPath.sep (removelast [head; tail]))
    | Some b => b
    end in
  Py.Ok (Py.slice_from (String.length base_path + 1) path,
         {| _base_path := Some base_path |}).

End PathParser.

(* ================================================================== *)
(** * class Comparer *)
(* ================================================================== *)

Module Comparer.

(** A parsed listing: directory key to the file names under it. *)
Definition listing : Type := Py.dict (list string).

(** An argument of type [Union[None, str, List[str]]]. *)
Inductive strings_arg : Type :=
| ArgNone
| ArgStr (s : string)
| ArgList (l : list string).

Definition as_list (a : strings_arg) : list string :=
  match a with
  | ArgNone => []
  | ArgStr s => [s]
  | ArgList l => l
  end.

Definition does_line_start_or_end_with_strings
           (line : string) (start_strings end_strings : strings_arg) : bool :=
  let start_strings := as_list start_strings in
  let end_strings := as_list end_strings in
  existsb (fun x => Py.startswith line x) start_strings
  || existsb (fun x => Py.endswith line x) end_strings.

(** The variables of the loop of [parse]. *)
Record parse_state : Type := {
  folder_path : string;
  file_content : listing;
  path_parser : PathParser.t
}.

Definition parse_init : parse_state :=
  {| folder_path := ""; file_content := []; path_parser := PathParser.new |}.

(** [file_content[folder_path].append(file_name)]: the list is looked
    up, which raises when the key is missing, and grows in place. *)
Definition append_file (d : listing) (k file_name : string)
  : Py.result listing :=
  names <- Py.getitem d k ;;
  Py.Ok (Py.setitem d k (names ++ [file_name])).

(** One turn of the loop of [parse]. *)
Definition parse_line (st : parse_state) (line : string)
  : Py.result parse_state :=
  let line := Py.rstrip line in
  if does_line_start_or_end_with_strings
       line (ArgList ["."; "/"]) (ArgStr ":")
  then
    ' (folder, parser) <-
      PathParser.parse (path_parser st)
                       (Py.rstrip_chars ":" (Py.rstrip_chars "/" line)) ;;
    let content :=
      if negb (Py.contains (file_content st) folder)
      then Py.setitem (file_content st) folder []
      else file_content st in
    Py.Ok {| folder_path := folder; file_content := content;
             path_parser := parser |}
  else if negb (does_line_start_or_end_with_strings
                  line (ArgStr "total") ArgNone)
  then
    file_name <-
      Py.getitem_last
        (Py.split " "%char (Py.rstrip_chars "/" (Py.lstrip_chars "/" line))) ;;
    content <- append_file (file_content st) (folder_path st) file_name ;;
    Py.Ok {| folder_path := folder_path st; file_content := content;
             path_parser := path_parser st |}
  else Py.Ok st.

Definition parse_loop (lines : list string) (st : parse_state)
  : Py.result parse_state :=
  Py.for_each parse_line lines st.

Definition parse (lines : list string) : Py.result listing :=
  st <- parse_loop lines parse_init ;;
  Py.Ok (file_content st).

(** The line appended for a missing file:
    [f"{left_key.lstrip('/')}/{left_filename.lstrip('/')}\n"]. *)
Definition report_line (left_key left_filename : string) : string :=
  Py.lstrip_chars "/" left_key ++ "/"
  ++ Py.lstrip_chars "/" left_filename ++ Py.LF.

(** Body of the loop over [left_filenames]. *)
Definition report_missing (left_key : string) (right_filenames : list string)
           (mismatched : list string) (left_filename : string)
  : Py.result (list string) :=
  if negb (Py.str_in left_filename right_filenames)
  then Py.Ok (mismatched ++ [report_line left_key left_filename])
  else Py.Ok mismatched.

(** Body of the loop over [right.keys()]. *)
Definition compare_pair (left right : listing) (left_key : string)
           (mismatched : list string) (right_key : string)
  : Py.result (list string) :=
  if String.eqb (Py.lower (Py.lstrip_chars "/" left_key))
                (Py.lower (Py.lstrip_chars "/" right_key))
  then
    left_filenames <- Py.getitem left left_key ;;
    right_filenames <- Py.getitem right right_key ;;
    Py.for_each (report_missing left_key right_filenames)
                left_filenames mismatched
  else Py.Ok mismatched.

(** Body of the loop over [left.keys()]. *)
Definition compare_left_key (left right : listing)
           (mismatched : list string) (left_key : string)
  : Py.result (list string) :=
  Py.for_each (compare_pair left right left_key) (Py.keys right) mismatched.

Definition find_mismatched_left (left right : listing)
  : Py.result (list string) :=
  Py.bind (ProgressBar.init (Py.len left * Py.len right) 0) (fun _ =>
  Py.for_each (compare_left_key left right) (Py.keys left) []).

(** The computation of [compare] between reading the two files and
    writing the two reports: both listings are parsed, then compared in
    both directions. *)
Definition compare_lines (left_lines right_lines : list string)
  : Py.result (list string * list string) :=
  left <- parse left_lines ;;
  right <- parse right_lines ;;
  left_mismatched <- find_mismatched_left left right ;;
  right_mismatched <- find_mismatched_left right left ;;
  Py.Ok (left_mismatched, right_mismatched).

(** ** The constructor *)

(** What [os.path.isdir] and [os.path.isfile] answer for a path. *)
Record filesystem : Type := {
  isdir : string -> bool;
  isfile : string -> bool
}.

(** An instance owns [dest]; [paths] is the list of the class, which
    all the instances share. *)
Record instance : Type := { dest : string }.

(** How a call of the constructor ends, with the list of the class as
    the call leaves it.  [raise msg] with a [str] raises TypeError. *)
Inductive constructed : Type :=
| Built (self : instance) (class_paths : list string)
| TypeError (class_paths : list string).

(** One turn of the loop over [paths], on the message and the list of
    the class. *)
Definition check_path (fs : filesystem) (acc : string * list string)
           (f : string) : string * list string :=
  let (msg, class_paths) := acc in
  if isdir fs f
  then (("input argument " ++ f ++ " pointing to folder rather than file")
          %string, class_paths)
  else if negb (isfile fs f)
  then (("invalid path argument specified " ++ f)%string, class_paths)
  else (msg, class_paths ++ [f]).

(** [paths] is another list than the list of the class, as in [run],
    which hands over the list of [ArgumentsAndConfigProcessing]. *)
Definition __init__ (fs : filesystem) (class_paths paths : list string)
           (dest : string) : constructed :=
  if negb (List.length paths =? 2)%nat then TypeError class_paths
  else
    let (msg, class_paths) :=
      fold_left (check_path fs) paths ("", class_paths) in
    if negb (String.eqb msg "") then TypeError class_paths
    else Built {| dest := dest |} class_paths.

End Comparer.

(* ================================================================== *)
(** * Vocabulary of the properties *)
(* ================================================================== *)

Module Spec.

Import Comparer.

(** ** Lines *)

(** The two tests of the loop of [parse], on a line already trimmed. *)
Definition is_header (line : string) : bool :=
  does_line_start_or_end_with_strings line (ArgList ["."; "/"]) (ArgStr ":").

Definition is_summary (line : string) : bool :=
  does_line_start_or_end_with_strings line (ArgStr "total") ArgNone.

(** A line that reaches the last branch of the loop. *)
Definition is_entry (line : string) : bool :=
  negb (is_header (Py.rstrip line)) && negb (is_summary (Py.rstrip line)).

Definition is_blank (line : string) : bool :=
  String.eqb (Py.rstrip line) "".

(** The line of an entry with the slashes at both ends removed. *)
Definition entry_text (line : string) : string :=
  Py.rstrip_chars "/" (Py.lstrip_chars "/" (Py.rstrip line)).

Definition has_space (s : string) : bool := Py.char_in s " "%char.

(** [f] is what follows the last space of [s], all of [s] when it has
    no space. *)
Definition after_last_space (s f : string) : Prop :=
  has_space f = false /\ (s = f \/ exists before : string, s = (before ++ " " ++ f)%string).

(** Following the words of the specification: the tokens of a string
    separated by runs of whitespace, and the last of them. *)
Fixpoint tokens_from (current s : string) : list string :=
  match s with
  | EmptyString => if String.eqb current "" then [] else [current]
  | String c s' =>
      if Py.isspace c then
        if String.eqb current "" then tokens_from "" s'
        else current :: tokens_from "" s'
      else tokens_from (current ++ String c "") s'
  end.

Definition whitespace_tokens (s : string) : list string := tokens_from "" s.

Definition last_whitespace_token (s : string) : string :=
  last (whitespace_tokens s) "".

(** ** Directories *)

(** The test of [find_mismatched_left]: equal once every leading slash
    is removed and the case is folded. *)
Definition same_directory (left_key right_key : string) : bool :=
  String.eqb (Py.lower (Py.lstrip_chars "/" left_key))
             (Py.lower (Py.lstrip_chars "/" right_key)).

(** Following the words of the specification: one leading separator
    removed from each key, then compared with the case folded. *)
Definition strip_one_leading (s : string) : string :=
  match s with
  | String "/"%char s' => s'
  | _ => s
  end.

Definition spec_matched (left_key right_key : string) : bool :=
  String.eqb (Py.lower (strip_one_leading left_key))
             (Py.lower (strip_one_leading right_key)).

(** What the engine shows of a pair of keys: a file of the left
    directory that the right directory lacks is reported. *)
(** The lines for one pair of matched directories. *)
Definition missing_lines (left_key : string)
           (left_filenames right_filenames : list string) : list string :=
  map (report_line left_key)
      (filter (fun f => negb (Py.str_in f right_filenames)) left_filenames).

(** What the engine shows of a pair of keys: whatever the two
    directories hold, the files of the left one that the right one lacks
    are reported. *)
Definition treated_as_matched (left_key right_key : string) : Prop :=
  forall left_filenames right_filenames : list string,
    find_mismatched_left [(left_key, left_filenames)]
                         [(right_key, right_filenames)]
    = Py.Ok (missing_lines left_key left_filenames right_filenames).

(** [left_key] has a match among the keys of [right]. *)
Definition has_match (left_key : string) (right : listing) : bool :=
  existsb (same_directory left_key) (Py.keys right).

(** Following the words of the specification: [left_key] has a match
    among the keys of [right] once one leading separator is removed from
    each key. *)
Definition spec_has_match (left_key : string) (right : listing) : bool :=
  existsb (spec_matched left_key) (Py.keys right).

Definition files_of (d : listing) (k : string) : list string :=
  match Py.lookup d k with
  | Some names => names
  | None => []
  end.

Definition pair_block (left right : listing) (left_key right_key : string)
  : list string :=
  if same_directory left_key right_key
  then missing_lines left_key (files_of left left_key)
                     (files_of right right_key)
  else [].

(** The report read off the keys in insertion order. *)
Definition pairwise_report (left right : listing) : list string :=
  flat_map (fun left_key =>
              flat_map (pair_block left right left_key) (Py.keys right))
           (Py.keys left).

(** The directories of [right] matched by [left_key], in insertion
    order. *)
Definition matches_of (left_key : string) (right : listing) : listing :=
  filter (fun entry => same_directory left_key (fst entry)) right.

(** The report read off the items: each left directory against each of
    its matches, one block per match. *)
Definition accumulated_report (left right : listing) : list string :=
  flat_map (fun l =>
              flat_map (fun r => missing_lines (fst l) (snd l) (snd r))
                       (matches_of (fst l) right))
           left.

End Spec.

(* ================================================================== *)
(** * The end-to-end scenario of the specification *)
(* ================================================================== *)

Module Scenario.

Definition TAB : string := String (ascii_of_nat 9) EmptyString.

Definition left_lines : list string :=
  ["./root/sub1:"; "total 2"; "x.txt"; "y.txt";
   "./root/sub2:"; "total 1"; "z.txt"].

Definition right_lines : list string :=
  ["./root/sub1:"; "total 1"; "x.txt";
   "./root/sub3:"; "total 1"; "w.txt"].

(** An entry line whose two fields are separated by a tab. *)
Definition tab_line : string := "a" ++ TAB ++ "b.txt".

(** A parser that has seen the header [./root/sub1]. *)
Definition established : PathParser.t :=
  {| PathParser._base_path := Some "./root" |}.

(** The state of the loop of [parse] after the header [./root/sub1:]. *)
Definition in_sub1 : Comparer.parse_state :=
  {| Comparer.folder_path := "sub1";
     Comparer.file_content := [("sub1", [])];
     Comparer.path_parser := established |}.

End Scenario.

(* ================================================================== *)
(** * Vocabulary of the further properties *)
(* ================================================================== *)

Module Shape.

Import Comparer Spec.

(** ** Strings *)

Fixpoint all_chars (p : ascii -> bool) (s : string) : bool :=
  match s with
  | EmptyString => true
  | String c s' => p c && all_chars p s'
  end.

(** Only whitespace. *)
Definition all_space (s : string) : bool := all_chars Py.isspace s.

Definition has_slash (s : string) : bool := Py.char_in s "/"%char.

(** A path segment sequence that neither begins nor ends with a slash
    and is not empty. *)
Definition trimmed_path (s : string) : Prop :=
  s <> "" /\ Py.lstrip_chars "/" s = s /\ Py.rstrip_chars "/" s = s.

(** ** Lines *)

(** The path that a header line hands to the normalizer. *)
Definition header_path (line : string) : string :=
  Py.rstrip_chars ":" (Py.rstrip_chars "/" (Py.rstrip line)).

(** The file name that an entry line stands for. *)
Definition file_name (line : string) : string :=
  last (Py.split " " (entry_text line)) "".

(** The base path that a fresh normalizer derives from its first path,
    and the key it makes of a path once the base path is [base]. *)
Definition base_of (path : string) : string :=
  Py.lstrip_chars "/" (fst (PosixPath.split path)).

Definition key_of (base path : string) : string :=
  Py.slice_from (String.length base + 1) path.

(** The paths of the header lines, in order, and their keys. *)
Definition header_paths (lines : list string) : list string :=
  map header_path (filter (fun line => is_header (Py.rstrip line)) lines).

Definition header_keys (lines : list string) : list string :=
  match header_paths lines with
  | [] => []
  | first :: _ => map (key_of (base_of first)) (header_paths lines)
  end.

(** Keys in the order in which they are first seen. *)
Definition add_key (ks : list string) (k : string) : list string :=
  if Py.str_in k ks then ks else ks ++ [k].

Definition first_seen (ks : list string) : list string :=
  fold_left add_key ks [].

(** A line that the loop passes over: no header, and it starts with
    [total]. *)
Definition is_skipped (line : string) : bool :=
  negb (is_header (Py.rstrip line)) && is_summary (Py.rstrip line).

(** A line of the entry kind comes before every header. *)
Definition entry_before_header (lines : list string) : Prop :=
  exists before line after,
    lines = before ++ line :: after
    /\ Forall (fun l => is_header (Py.rstrip l) = false) before
    /\ is_entry line = true.

(** The current directory of the loop is registered. *)
Definition attributed (st : parse_state) : Prop :=
  In (folder_path st) (Py.keys (file_content st)).

(** The state after a header line. *)
Definition after_header (st : parse_state) (line : string) : parse_state :=
  let base :=
    match PathParser._base_path (path_parser st) with
    | None => base_of (header_path line)
    | Some b => b
    end in
  let key := key_of base (header_path line) in
  {| folder_path := key;
     file_content :=
       if Py.contains (file_content st) key then file_content st
       else Py.setitem (file_content st) key [];
     path_parser := {| PathParser._base_path := Some base |} |}.

(** No registered file name holds a space. *)
Definition spaceless (d : listing) : Prop :=
  forall k names f, In (k, names) d -> In f names -> has_space f = false.

(** ** Reports *)

(** [s] is the line of a file of a left directory that is absent from a
    right directory matching it. *)
Definition reported (left right : listing) (s : string) : Prop :=
  exists left_key left_filenames right_key right_filenames f,
    In (left_key, left_filenames) left
    /\ In (right_key, right_filenames) right
    /\ same_directory left_key right_key = true
    /\ In f left_filenames
    /\ ~ In f right_filenames
    /\ s = report_line left_key f.

(** No two different keys of the listing match each other. *)
Definition folded_apart (d : listing) : Prop :=
  forall k k', In k (Py.keys d) -> In k' (Py.keys d) ->
               same_directory k k' = true -> k = k'.

(** ** The constructor *)

(** A path that is no directory and is a file. *)
Definition regular (fs : filesystem) (f : string) : bool :=
  negb (isdir fs f) && isfile fs f.

(** The list of the class after the call, whatever its outcome. *)
Definition class_paths_after (c : constructed) : list string :=
  match c with
  | Built _ class_paths => class_paths
  | TypeError class_paths => class_paths
  end.

End Shape.

(* ================================================================== *)
(** * Facts about the built-ins *)
(* ================================================================== *)

Section Loops.

Context {A S B : Type}.

Lemma for_each_app (body : S -> A -> Py.result S)
      (xs ys : list A) (acc : S) :
  Py.for_each body (xs ++ ys) acc
  = Py.bind (Py.for_each body xs acc) (Py.for_each body ys).
Proof.
  revert acc; induction xs as [|x xs IH]; intros acc; simpl.
  - reflexivity.
  - destruct (body acc x) as [acc'|e]; simpl; [apply IH | reflexivity].
Qed.

(** A loop whose turns each append a block appends the blocks in turn. *)
Lemma for_each_blocks (body : list B -> A -> Py.result (list B))
      (block : A -> list B) (xs : list A) :
  (forall x acc, In x xs -> body acc x = Py.Ok (acc ++ block x)) ->
  forall acc, Py.for_each body xs acc = Py.Ok (acc ++ flat_map block xs).
Proof.
  induction xs as [|x xs IH]; intros Hbody acc; simpl.
  - now rewrite app_nil_r.
  - rewrite Hbody by now left. simpl.
    rewrite IH by (intros; apply Hbody; now right).
    now rewrite app_assoc.
Qed.

End Loops.

Lemma endswith_refl (s : string) : Py.endswith s s = true.
Proof. destruct s; cbn [Py.endswith]; now rewrite String.eqb_refl. Qed.

Lemma endswith_append (a b : string) : Py.endswith (a ++ b) b = true.
Proof.
  induction a as [|c a IH]; cbn [Py.endswith String.append].
  - apply endswith_refl.
  - rewrite IH. apply orb_true_r.
Qed.

Lemma lstrip_by_head (p : ascii -> bool) (s : string) :
  match Py.lstrip_by p s with
  | EmptyString => True
  | String c _ => p c = false
  end.
Proof.
  induction s as [|c s IH]; simpl; [exact I|].
  destruct (p c) eqn:E; [exact IH | exact E].
Qed.

Lemma lstrip_slash_head (s : string) :
  Py.startswith (Py.lstrip_chars "/" s) "/" = false.
Proof.
  unfold Py.startswith, Py.lstrip_chars.
  pose proof (lstrip_by_head (Py.char_in "/") s) as H.
  destruct (Py.lstrip_by (Py.char_in "/") s) as [|c r]; [reflexivity|].
  cbn [String.prefix].
  destruct (ascii_dec "/" c) as [<-|_]; [discriminate H | reflexivity].
Qed.

Lemma str_in_In (x : string) (xs : list string) :
  Py.str_in x xs = true <-> In x xs.
Proof.
  unfold Py.str_in. rewrite existsb_exists. split.
  - intros [y [Hy E]]. apply String.eqb_eq in E. now subst.
  - intros H. exists x. split; [exact H | apply String.eqb_refl].
Qed.

Lemma lookup_keys {V : Type} (d : Py.dict V) (k : string) :
  In k (Py.keys d) -> exists v, Py.lookup d k = Some v.
Proof.
  induction d as [|[k' v'] d IH]; simpl; [contradiction|].
  intros [->|H].
  - rewrite String.eqb_refl. now exists v'.
  - destruct (String.eqb k k'); [now exists v' | now apply IH].
Qed.

Lemma lookup_not_keys {V : Type} (d : Py.dict V) (k : string) :
  ~ In k (Py.keys d) -> Py.lookup d k = None.
Proof.
  induction d as [|[k' v'] d IH]; simpl; [reflexivity|].
  intros H. destruct (String.eqb_spec k k') as [->|_].
  - exfalso. apply H. now left.
  - apply IH. intros F. apply H. now right.
Qed.

Lemma lookup_wf {V : Type} (d : Py.dict V) (k : string) (v : V) :
  Py.wf d -> In (k, v) d -> Py.lookup d k = Some v.
Proof.
  unfold Py.wf. induction d as [|[k' v'] d IH]; simpl; [contradiction|].
  intros Hnd [E|H].
  - injection E as -> ->. now rewrite String.eqb_refl.
  - apply andb_true_iff in Hnd as [Hnotin Hnd'].
    destruct (String.eqb_spec k k') as [->|_].
    + apply negb_true_iff in Hnotin.
      assert (Hin : Py.str_in k' (Py.keys d) = true).
      { apply str_in_In. change k' with (fst (k', v)). now apply in_map. }
      rewrite Hin in Hnotin. discriminate.
    + now apply IH.
Qed.

Lemma lookup_app_other {V : Type} (d1 d2 : Py.dict V) (k k' : string) (v : V) :
  k <> k' ->
  Py.lookup (d1 ++ (k', v) :: d2) k = Py.lookup (d1 ++ d2) k.
Proof.
  intros Hne. induction d1 as [|[k1 v1] d1 IH]; simpl.
  - destruct (String.eqb_spec k k'); [contradiction | reflexivity].
  - now rewrite IH.
Qed.

Lemma getitem_files_of (d : Comparer.listing) (k : string) :
  In k (Py.keys d) -> Py.getitem d k = Py.Ok (Spec.files_of d k).
Proof.
  intros H. destruct (lookup_keys d k H) as [v Hv].
  unfold Py.getitem, Spec.files_of. now rewrite Hv.
Qed.

(* ================================================================== *)
(** * The difference engine, loop by loop *)
(* ================================================================== *)

Section Engine.

Import Comparer Spec.

Variables left right : listing.

Lemma report_missing_loop (left_key : string)
      (left_filenames right_filenames mismatched : list string) :
  Py.for_each (report_missing left_key right_filenames)
              left_filenames mismatched
  = Py.Ok (mismatched
           ++ missing_lines left_key left_filenames right_filenames).
Proof.
  unfold missing_lines.
  revert mismatched.
  induction left_filenames as [|f fs IH]; intros mismatched; simpl.
  - now rewrite app_nil_r.
  - unfold report_missing at 1.
    destruct (Py.str_in f right_filenames); simpl; rewrite IH.
    + reflexivity.
    + now rewrite <- app_assoc.
Qed.

Lemma compare_pair_block (left_key right_key : string)
      (mismatched : list string) :
  In left_key (Py.keys left) -> In right_key (Py.keys right) ->
  compare_pair left right left_key mismatched right_key
  = Py.Ok (mismatched ++ pair_block left right left_key right_key).
Proof.
  intros Hl Hr. unfold compare_pair, pair_block, same_directory.
  destruct (String.eqb _ _).
  - rewrite (getitem_files_of left left_key Hl),
            (getitem_files_of right right_key Hr).
    simpl. apply report_missing_loop.
  - now rewrite app_nil_r.
Qed.

Lemma compare_left_key_block (left_key : string) (mismatched : list string) :
  In left_key (Py.keys left) ->
  compare_left_key left right mismatched left_key
  = Py.Ok (mismatched
           ++ flat_map (pair_block left right left_key) (Py.keys right)).
Proof.
  intros Hl. unfold compare_left_key.
  apply for_each_blocks. intros rk acc Hr.
  now apply compare_pair_block.
Qed.

Lemma progress_bar_started :
  left <> [] -> right <> [] ->
  ProgressBar.init (Py.len left * Py.len right) 0 = Py.Ok tt.
Proof.
  intros Hl Hr. unfold ProgressBar.init, Py.len.
  destruct left; [contradiction|]. destruct right; [contradiction|].
  reflexivity.
Qed.

Lemma progress_bar_refused :
  left = [] \/ right = [] ->
  ProgressBar.init (Py.len left * Py.len right) 0
  = Py.Raise Py.AssertionError.
Proof.
  intros [-> | ->]; unfold ProgressBar.init, Py.len; simpl.
  - reflexivity.
  - now rewrite Nat.mul_0_r.
Qed.

Lemma find_mismatched_left_report :
  left <> [] -> right <> [] ->
  find_mismatched_left left right = Py.Ok (pairwise_report left right).
Proof.
  intros Hl Hr. unfold find_mismatched_left.
  rewrite (progress_bar_started Hl Hr). simpl.
  unfold pairwise_report.
  change (flat_map ?f ?l) with ([] ++ flat_map f l).
  apply for_each_blocks. intros lk acc Hin.
  now apply compare_left_key_block.
Qed.

Lemma find_mismatched_left_refused :
  left = [] \/ right = [] ->
  find_mismatched_left left right = Py.Raise Py.AssertionError.
Proof.
  intros H. unfold find_mismatched_left.
  now rewrite (progress_bar_refused H).
Qed.

Lemma find_mismatched_left_inv (out : list string) :
  find_mismatched_left left right = Py.Ok out ->
  left <> [] /\ right <> [] /\ out = pairwise_report left right.
Proof.
  intros H.
  assert (Hl : left <> []).
  { intros E. rewrite find_mismatched_left_refused in H by now left.
    discriminate. }
  assert (Hr : right <> []).
  { intros E. rewrite find_mismatched_left_refused in H by now right.
    discriminate. }
  rewrite (find_mismatched_left_report Hl Hr) in H.
  injection H as <-. now repeat split.
Qed.

End Engine.

Section Reports.

Import Comparer Spec.

Lemma flat_map_same {A B : Type} (f g : A -> list B) (xs : list A) :
  (forall x, In x xs -> f x = g x) -> flat_map f xs = flat_map g xs.
Proof.
  induction xs as [|x xs IH]; intros H; simpl; [reflexivity|].
  rewrite (H x) by now left.
  f_equal. apply IH. intros y Hy. apply H. now right.
Qed.

Lemma flat_map_nothing {A B : Type} (f : A -> list B) (xs : list A) :
  (forall x, In x xs -> f x = []) -> flat_map f xs = [].
Proof.
  induction xs as [|x xs IH]; intros H; simpl; [reflexivity|].
  rewrite (H x) by now left. apply IH. intros y Hy. apply H. now right.
Qed.

Lemma files_of_wf (d : listing) (k : string) (names : list string) :
  Py.wf d -> In (k, names) d -> files_of d k = names.
Proof.
  intros Hwf Hin. unfold files_of. now rewrite (lookup_wf d k names Hwf Hin).
Qed.

(** The blocks of one left directory, read off the items of [right]. *)
Lemma right_blocks_items (left right : listing) (left_key : string)
      (items : listing) :
  (forall r, In r items -> files_of right (fst r) = snd r) ->
  flat_map (pair_block left right left_key) (Py.keys items)
  = flat_map (fun r => missing_lines left_key (files_of left left_key) (snd r))
             (matches_of left_key items).
Proof.
  induction items as [|[rk rfs] items IH]; intros H; simpl; [reflexivity|].
  rewrite IH by (intros r Hr; apply H; now right).
  unfold pair_block at 1.
  destruct (same_directory left_key rk); simpl; [|reflexivity].
  pose proof (H (rk, rfs) (or_introl eq_refl)) as E. simpl in E.
  now rewrite E.
Qed.

Lemma left_blocks_items (left right : listing) (items : listing) :
  Py.wf right ->
  (forall l, In l items -> files_of left (fst l) = snd l) ->
  flat_map (fun left_key =>
              flat_map (pair_block left right left_key) (Py.keys right))
           (Py.keys items)
  = accumulated_report items right.
Proof.
  intros Hwf.
  induction items as [|[lk lfs] items IH]; intros H; simpl; [reflexivity|].
  rewrite IH by (intros l Hl; apply H; now right).
  f_equal.
  rewrite right_blocks_items.
  - pose proof (H (lk, lfs) (or_introl eq_refl)) as E. simpl in E.
    now rewrite E.
  - intros [rk rfs] Hr. now apply files_of_wf.
Qed.

Lemma pairwise_report_accumulated (left right : listing) :
  Py.wf left -> Py.wf right ->
  pairwise_report left right = accumulated_report left right.
Proof.
  intros Hl Hr. unfold pairwise_report.
  apply left_blocks_items; [exact Hr|].
  intros [lk lfs] Hin. now apply files_of_wf.
Qed.

(** A directory without a match can be taken out of [left]. *)
Lemma pairwise_report_unmatched (before after : listing) (right : listing)
      (left_key : string) (names : list string) :
  (forall right_key, In right_key (Py.keys right) ->
                     same_directory left_key right_key = false) ->
  pairwise_report (before ++ (left_key, names) :: after) right
  = pairwise_report (before ++ after) right.
Proof.
  intros Hno.
  set (full := before ++ (left_key, names) :: after).
  set (rest := before ++ after).
  assert (Hblock : forall k rk, In rk (Py.keys right) ->
                     pair_block full right k rk = pair_block rest right k rk).
  { intros k rk Hrk. unfold pair_block.
    destruct (same_directory k rk) eqn:E; [|reflexivity].
    assert (Hne : k <> left_key).
    { intros ->. rewrite (Hno rk Hrk) in E. discriminate. }
    unfold files_of at 1 3. unfold full, rest.
    now rewrite (lookup_app_other before after k left_key names Hne). }
  assert (Hrow : forall k,
             flat_map (pair_block full right k) (Py.keys right)
             = flat_map (pair_block rest right k) (Py.keys right)).
  { intros k. apply flat_map_same. intros rk Hrk. now apply Hblock. }
  unfold pairwise_report, full at 2, rest at 2, Py.keys.
  rewrite !map_app, !flat_map_app. simpl.
  rewrite (flat_map_nothing (pair_block full right left_key)).
  - simpl. f_equal; apply flat_map_same; intros k _; apply Hrow.
  - intros rk Hrk. unfold pair_block. now rewrite (Hno rk Hrk).
Qed.

Lemma in_pairwise_report (left right : listing) (s : string) :
  In s (pairwise_report left right) ->
  exists left_key f,
    In left_key (Py.keys left) /\ In f (files_of left left_key)
    /\ s = report_line left_key f.
Proof.
  unfold pairwise_report. intros H.
  apply in_flat_map in H as [lk [Hlk H]].
  apply in_flat_map in H as [rk [Hrk H]].
  unfold pair_block in H.
  destruct (same_directory lk rk); [|contradiction].
  unfold missing_lines in H.
  apply in_map_iff in H as [f [<- Hf]].
  apply filter_In in Hf as [Hf _].
  now exists lk, f.
Qed.

End Reports.

(* ================================================================== *)
(** * The parser, line by line *)
(* ================================================================== *)

Section Strings.

Lemma slice_from_past (s : string) (n : nat) :
  String.length s <= n -> Py.slice_from n s = "".
Proof.
  revert n; induction s as [|c s IH]; intros n H.
  - now destruct n.
  - destruct n as [|n]; simpl in *; [lia|]. apply IH. lia.
Qed.

Lemma has_space_cons (c : ascii) (s : string) :
  Spec.has_space (String c s) = Ascii.eqb c " " || Spec.has_space s.
Proof. unfold Spec.has_space. simpl. now rewrite Ascii.eqb_sym. Qed.

Lemma split_no_space (s : string) :
  Spec.has_space s = false -> Py.split " " s = [s].
Proof.
  induction s as [|c s IH]; intros H; [reflexivity|].
  rewrite has_space_cons in H. apply orb_false_iff in H as [Hc Hs].
  cbn [Py.split]. rewrite Hc, (IH Hs). reflexivity.
Qed.

Lemma split_space (s : string) :
  Spec.has_space s = true ->
  exists field field' fields, Py.split " " s = field :: field' :: fields.
Proof.
  induction s as [|c s IH]; intros H; [discriminate|].
  rewrite has_space_cons in H. cbn [Py.split].
  destruct (Ascii.eqb c " ") eqn:Hc.
  - destruct (Py.split " " s) as [|f fs] eqn:E.
    + destruct s; simpl in E; [discriminate|].
      destruct (Ascii.eqb a " "); [discriminate|].
      destruct (Py.split " " s); discriminate.
    + now exists "", f, fs.
  - simpl in H. destruct (IH H) as [f [f' [fs E]]]. rewrite E.
    now exists (String c f), f', fs.
Qed.

(** [split(' ')[-1]] always answers, with what follows the last space. *)
Lemma split_last_field (s : string) :
  exists f, Py.getitem_last (Py.split " " s) = Py.Ok f
            /\ Spec.after_last_space s f.
Proof.
  induction s as [|c s IH].
  - exists "". repeat split. now left.
  - destruct IH as [f [Hlast [Hf Hs]]].
    cbn [Py.split].
    destruct (Ascii.eqb c " ") eqn:Hc.
    + apply Ascii.eqb_eq in Hc. subst c.
      exists f. split; [|split; [exact Hf|right]].
      * destruct (Py.split " " s) as [|g gs]; [discriminate Hlast|exact Hlast].
      * destruct Hs as [->|[before ->]].
        -- now exists "".
        -- now exists (String " " before).
    + destruct (Spec.has_space s) eqn:Hsp.
      * destruct (split_space s Hsp) as [g [g' [gs E]]].
        rewrite E in *. exists f.
        split; [exact Hlast|split; [exact Hf|right]].
        destruct Hs as [->|[before ->]].
        -- rewrite Hf in Hsp. discriminate.
        -- now exists (String c before).
      * rewrite (split_no_space s Hsp) in *.
        injection Hlast as <-.
        exists (String c s). repeat split.
        -- now rewrite has_space_cons, Hc, Hsp.
        -- now left.
Qed.

End Strings.

Section Listings.

Lemma keys_setitem_present {V : Type} (d : Py.dict V) (k : string) (v : V) :
  In k (Py.keys d) -> Py.keys (Py.setitem d k v) = Py.keys d.
Proof.
  induction d as [|[k' v'] d IH]; simpl; [contradiction|].
  intros H. destruct (String.eqb_spec k k') as [->|Hne]; simpl.
  - reflexivity.
  - f_equal. apply IH. destruct H as [E|H]; [congruence | exact H].
Qed.

Lemma lookup_setitem_same {V : Type} (d : Py.dict V) (k : string) (v : V) :
  Py.lookup (Py.setitem d k v) k = Some v.
Proof.
  induction d as [|[k' v'] d IH]; simpl.
  - now rewrite String.eqb_refl.
  - destruct (String.eqb k k') eqn:E; simpl; now rewrite E.
Qed.

Lemma lookup_setitem_other {V : Type} (d : Py.dict V) (k k' : string) (v : V) :
  k' <> k -> Py.lookup (Py.setitem d k v) k' = Py.lookup d k'.
Proof.
  intros Hne. induction d as [|[k1 v1] d IH]; simpl.
  - destruct (String.eqb_spec k' k); [contradiction | reflexivity].
  - destruct (String.eqb_spec k k1) as [->|_]; simpl.
    + destruct (String.eqb_spec k' k1); [contradiction | reflexivity].
    + now rewrite IH.
Qed.

Lemma lookup_some_keys {V : Type} (d : Py.dict V) (k : string) (v : V) :
  Py.lookup d k = Some v -> In k (Py.keys d).
Proof.
  induction d as [|[k' v'] d IH]; simpl; [discriminate|].
  destruct (String.eqb_spec k k') as [->|_]; [now left|].
  intros H. right. now apply IH.
Qed.

End Listings.

Section Parser.

Import Comparer Spec.

Lemma blank_not_header (line : string) :
  is_blank line = true -> is_header (Py.rstrip line) = false.
Proof.
  unfold is_blank. intros H. apply String.eqb_eq in H. now rewrite H.
Qed.

Lemma blank_is_entry (line : string) :
  is_blank line = true -> is_entry line = true.
Proof.
  unfold is_blank, is_entry. intros H. apply String.eqb_eq in H.
  now rewrite H.
Qed.

Lemma blank_entry_text (line : string) :
  is_blank line = true -> entry_text line = "".
Proof.
  unfold is_blank, entry_text. intros H. apply String.eqb_eq in H.
  now rewrite H.
Qed.

Lemma after_last_space_empty (f : string) : after_last_space "" f -> f = "".
Proof.
  intros [_ [E|[before E]]]; [now symmetry|].
  destruct before; discriminate E.
Qed.

(** The three branches of the loop of [parse]. *)
Lemma parse_line_summary (st : parse_state) (line : string) :
  is_header (Py.rstrip line) = false ->
  is_summary (Py.rstrip line) = true ->
  parse_line st line = Py.Ok st.
Proof.
  unfold is_header, is_summary, parse_line. cbv zeta.
  intros -> ->. reflexivity.
Qed.

Lemma parse_line_entry (st : parse_state) (line : string)
      (names : list string) :
  is_entry line = true ->
  Py.lookup (file_content st) (folder_path st) = Some names ->
  exists f,
    after_last_space (entry_text line) f
    /\ parse_line st line
       = Py.Ok {| folder_path := folder_path st;
                  file_content :=
                    Py.setitem (file_content st) (folder_path st)
                               (names ++ [f]);
                  path_parser := path_parser st |}.
Proof.
  unfold is_entry, is_header, is_summary. intros H Hnames.
  apply andb_true_iff in H as [Hh Hs].
  apply negb_true_iff in Hh, Hs.
  destruct (split_last_field (entry_text line)) as [f [Hlast Hf]].
  exists f. split; [exact Hf|].
  unfold parse_line. cbv zeta. rewrite Hh, Hs.
  unfold entry_text in Hlast. cbn [negb]. rewrite Hlast.
  unfold append_file, Py.getitem. now rewrite Hnames.
Qed.

Lemma parse_line_entry_lost (st : parse_state) (line : string) :
  is_entry line = true ->
  Py.lookup (file_content st) (folder_path st) = None ->
  parse_line st line = Py.Raise (Py.KeyError (folder_path st)).
Proof.
  unfold is_entry, is_header, is_summary. intros H Hnone.
  apply andb_true_iff in H as [Hh Hs].
  apply negb_true_iff in Hh, Hs.
  destruct (split_last_field (entry_text line)) as [f [Hlast _]].
  unfold parse_line. cbv zeta. rewrite Hh, Hs.
  unfold entry_text in Hlast. cbn [negb]. rewrite Hlast.
  unfold append_file, Py.getitem. now rewrite Hnone.
Qed.

(** Before the first header nothing is registered, and the loop either
    goes on unchanged or has already raised. *)
Lemma parse_loop_before_header (lines : list string) (st : parse_state) :
  file_content st = [] -> folder_path st = "" ->
  Forall (fun line => is_header (Py.rstrip line) = false) lines ->
  parse_loop lines st = Py.Ok st
  \/ parse_loop lines st = Py.Raise (Py.KeyError "").
Proof.
  intros Hd Hk Hall. unfold parse_loop.
  induction Hall as [|line lines Hh _ IH]; [now left|].
  cbn [Py.for_each].
  destruct (is_summary (Py.rstrip line)) eqn:Hs.
  - rewrite (parse_line_summary st line Hh Hs). exact IH.
  - right. rewrite parse_line_entry_lost.
    + now rewrite Hk.
    + unfold is_entry. now rewrite Hh, Hs.
    + now rewrite Hd.
Qed.

Lemma parse_entry_before_header (before after : list string)
      (line : string) :
  Forall (fun l => is_header (Py.rstrip l) = false) before ->
  is_entry line = true ->
  parse (before ++ line :: after) = Py.Raise (Py.KeyError "").
Proof.
  intros Hall Hentry. unfold parse, parse_loop.
  rewrite for_each_app.
  destruct (parse_loop_before_header before parse_init eq_refl eq_refl Hall)
    as [E|E]; unfold parse_loop in E; rewrite E; [|reflexivity].
  cbn [Py.bind Py.for_each].
  now rewrite (parse_line_entry_lost parse_init line Hentry eq_refl).
Qed.

End Parser.

Section Matching.

Import Comparer Spec.

Lemma endswith_append_right (a b x : string) :
  Py.endswith b x = true -> Py.endswith (a ++ b) x = true.
Proof.
  intros H. induction a as [|c a IH]; cbn [Py.endswith String.append].
  - exact H.
  - rewrite IH. apply orb_true_r.
Qed.

Lemma report_line_terminated (left_key f : string) :
  Py.endswith (report_line left_key f) Py.LF = true.
Proof.
  unfold report_line.
  do 2 apply endswith_append_right. apply endswith_append.
Qed.

Lemma has_match_none (left_key : string) (right : listing) :
  has_match left_key right = false ->
  forall right_key, In right_key (Py.keys right) ->
                    same_directory left_key right_key = false.
Proof.
  unfold has_match. intros H rk Hrk.
  destruct (same_directory left_key rk) eqn:E; [|reflexivity].
  assert (existsb (same_directory left_key) (Py.keys right) = true)
    by (apply existsb_exists; now exists rk).
  congruence.
Qed.

(** One directory on each side: the only pair there is. *)
Lemma single_pair_report (left_key right_key : string)
      (left_filenames right_filenames : list string) :
  find_mismatched_left [(left_key, left_filenames)]
                       [(right_key, right_filenames)]
  = Py.Ok (if same_directory left_key right_key
           then missing_lines left_key left_filenames right_filenames
           else []).
Proof.
  rewrite find_mismatched_left_report by discriminate.
  unfold pairwise_report, pair_block, files_of. cbn [Py.keys map fst flat_map Py.lookup].
  rewrite !String.eqb_refl, !app_nil_r. reflexivity.
Qed.

Lemma treated_as_matched_iff (left_key right_key : string) :
  treated_as_matched left_key right_key
  <-> same_directory left_key right_key = true.
Proof.
  unfold treated_as_matched. split.
  - intros H. specialize (H ["f"] []).
    rewrite single_pair_report in H.
    destruct (same_directory left_key right_key); [reflexivity|].
    discriminate H.
  - intros E lfs rfs. now rewrite single_pair_report, E.
Qed.

End Matching.

(* ================================================================== *)
(** * The properties of the specification *)
(* ================================================================== *)

Import Comparer Spec.

(** ** The difference engine *)

(** C6, as the code has it: the engine treats a left key and a right key
    as matched exactly when the two keys are equal once all their
    leading slashes (not only one) are removed and their case is
    folded. *)
Theorem matched_iff_same_directory (left_key right_key : string) :
  treated_as_matched left_key right_key
  <-> Py.lower (Py.lstrip_chars "/" left_key)
      = Py.lower (Py.lstrip_chars "/" right_key).
Proof.
  rewrite treated_as_matched_iff. unfold same_directory.
  apply String.eqb_eq.
Qed.

(** C6 as stated fails: the keys [//a] and [/a] differ after one leading
    separator is removed from each, yet the engine matches them. *)
Lemma matched_not_one_separator :
  ~ (treated_as_matched "//a" "/a" <-> spec_matched "//a" "/a" = true).
Proof.
  intros [H _].
  assert (T : treated_as_matched "//a" "/a")
    by (apply treated_as_matched_iff; reflexivity).
  specialize (H T). discriminate H.
Qed.

(** C7: a left directory is evaluated against each of the right
    directories it matches, one after the other, and the blocks of all
    the matches are concatenated, nothing being removed across
    matches. *)
Theorem multiple_matches_accumulate (left right : listing) :
  Py.wf left -> Py.wf right -> left <> [] -> right <> [] ->
  find_mismatched_left left right = Py.Ok (accumulated_report left right).
Proof.
  intros Wl Wr Hl Hr.
  rewrite (find_mismatched_left_report left right Hl Hr).
  now rewrite pairwise_report_accumulated.
Qed.

Lemma multiple_matches_accumulate_witness :
  Py.wf [("a", ["f"])] /\ Py.wf [("A", @nil string); ("a", [])]
  /\ [("a", ["f"])] <> @nil (string * list string)
  /\ [("A", @nil string); ("a", [])] <> []
  /\ find_mismatched_left [("a", ["f"])] [("A", []); ("a", [])]
     = Py.Ok [report_line "a" "f"; report_line "a" "f"].
Proof.
  split; [reflexivity|]. split; [reflexivity|].
  split; [discriminate|]. split; [discriminate|].
  apply (multiple_matches_accumulate [("a", ["f"])] [("A", []); ("a", [])]);
    [reflexivity | reflexivity | discriminate | discriminate].
Defined.

(** C8, as the code has it: a left directory that the engine's test
    (all the leading slashes removed, case folded) matches with no key
    of [right] adds nothing to the output, whatever the two mappings
    are: the call ends as it does with that directory taken out of
    [left]; when it was the only directory the output is empty, or the
    progress bar refuses an empty [right]. *)
Theorem unmatched_directory_silent (before after right : listing)
        (left_key : string) (names : list string) :
  has_match left_key right = false ->
  find_mismatched_left (before ++ (left_key, names) :: after) right
  = match before ++ after, right with
    | [], [] => Py.Raise Py.AssertionError
    | [], _ :: _ => Py.Ok []
    | _ :: _, _ => find_mismatched_left (before ++ after) right
    end.
Proof.
  intros Hno.
  destruct right as [|r rs].
  - rewrite find_mismatched_left_refused by now right.
    destruct (before ++ after) as [|x rest] eqn:E; [reflexivity|].
    rewrite <- E. symmetry. apply find_mismatched_left_refused. now right.
  - rewrite find_mismatched_left_report;
      [|now destruct before|discriminate].
    rewrite (pairwise_report_unmatched before after (r :: rs) left_key names
               (has_match_none left_key (r :: rs) Hno)).
    destruct (before ++ after) as [|x rest] eqn:E; [reflexivity|].
    rewrite <- E.
    rewrite find_mismatched_left_report; [reflexivity| |discriminate].
    rewrite E. discriminate.
Qed.

Lemma unmatched_directory_silent_witness :
  has_match "sub2" [("sub1", ["x.txt"]); ("sub3", ["w.txt"])] = false
  /\ find_mismatched_left
       ([("sub1", ["x.txt"; "y.txt"])] ++ ("sub2", ["z.txt"]) :: [])
       [("sub1", ["x.txt"]); ("sub3", ["w.txt"])]
     = find_mismatched_left
         [("sub1", ["x.txt"; "y.txt"])]
         [("sub1", ["x.txt"]); ("sub3", ["w.txt"])].
Proof.
  split; [reflexivity|].
  apply (unmatched_directory_silent
           [("sub1", ["x.txt"; "y.txt"])] []
           [("sub1", ["x.txt"]); ("sub3", ["w.txt"])] "sub2" ["z.txt"]).
  reflexivity.
Defined.

(** C8 as stated fails: the left key [//a] has no match among the keys
    of the right mapping once one leading separator is removed from each
    key, yet its file is reported.  The two mappings are what [parse]
    makes of two listings. *)
Lemma unmatched_by_one_separator_reported :
  spec_has_match "//a" [("/a", [])] = false
  /\ find_mismatched_left [("//a", ["f"])] [("/a", [])]
     = Py.Ok [("a/f" ++ Py.LF)%string]
  /\ find_mismatched_left [("//a", ["f"])] [("/a", [])] <> Py.Ok []
  /\ parse ["/x/y:"; "/x//a:"; "f"] = Py.Ok [("/y", []); ("//a", ["f"])]
  /\ parse ["/x/a:"] = Py.Ok [("/a", [])]
  /\ compare_lines ["/x/y:"; "/x//a:"; "f"] ["/x/a:"]
     = Py.Ok ([("a/f" ++ Py.LF)%string], []).
Proof.
  repeat split; vm_compute; try reflexivity. intros H. discriminate H.
Qed.

(** C9: the engine is a function of its two mappings as sequences in
    insertion order.  Two calls on the same inputs end the same way, and
    that way is fixed by the order of the keys and of the file names:
    either the report read off the keys of [left], then of [right], in
    insertion order, or the refusal of the progress bar when one of the
    mappings is empty. *)
Theorem find_mismatched_left_deterministic
        (left right : listing) (first second : Py.result (list string)) :
  find_mismatched_left left right = first ->
  find_mismatched_left left right = second ->
  first = second
  /\ (first = Py.Ok (pairwise_report left right)
      \/ (first = Py.Raise Py.AssertionError
          /\ (left = [] \/ right = []))).
Proof.
  intros H1 H2. split; [congruence|].
  destruct left as [|l ls].
  { right. split; [|now left].
    rewrite <- H1. apply find_mismatched_left_refused. now left. }
  destruct right as [|r rs].
  { right. split; [|now right].
    rewrite <- H1. apply find_mismatched_left_refused. now right. }
  left. rewrite <- H1. apply find_mismatched_left_report; discriminate.
Qed.

Lemma find_mismatched_left_deterministic_witness :
  find_mismatched_left [("b", ["f"]); ("a", ["g"])] [("a", []); ("b", [])]
  = Py.Ok [report_line "b" "f"; report_line "a" "g"]
  /\ (Py.Ok [report_line "b" "f"; report_line "a" "g"]
      = Py.Ok (pairwise_report [("b", ["f"]); ("a", ["g"])]
                               [("a", []); ("b", [])])
      \/ (Py.Ok [report_line "b" "f"; report_line "a" "g"]
          = Py.Raise Py.AssertionError
          /\ ([("b", ["f"]); ("a", ["g"])] = @nil (string * list string)
              \/ [("a", @nil string); ("b", [])] = []))).
Proof.
  split; [reflexivity|].
  apply (find_mismatched_left_deterministic
           [("b", ["f"]); ("a", ["g"])] [("a", []); ("b", [])]
           (Py.Ok [report_line "b" "f"; report_line "a" "g"])
           (Py.Ok [report_line "b" "f"; report_line "a" "g"]));
    reflexivity.
Defined.

(** C10: every string of the output ends with a newline; it is the left
    key without its leading slashes, a slash, a file name of that
    directory without its leading slashes, and the newline. *)
Theorem report_lines_terminated
        (left right : listing) (out : list string) (s : string) :
  find_mismatched_left left right = Py.Ok out ->
  In s out ->
  Py.endswith s Py.LF = true
  /\ exists left_key f,
       In left_key (Py.keys left)
       /\ In f (files_of left left_key)
       /\ Py.startswith (Py.lstrip_chars "/" f) "/" = false
       /\ s = (Py.lstrip_chars "/" left_key ++ "/"
               ++ Py.lstrip_chars "/" f ++ Py.LF)%string.
Proof.
  intros Hout Hs.
  apply find_mismatched_left_inv in Hout as [_ [_ ->]].
  apply in_pairwise_report in Hs as [lk [f [Hlk [Hf ->]]]].
  split; [apply report_line_terminated|].
  exists lk, f. repeat split; try assumption.
  apply lstrip_slash_head.
Qed.

Lemma report_lines_terminated_witness :
  find_mismatched_left [("/Sub", ["//f"])] [("sub", ["g"])]
  = Py.Ok [("Sub/f" ++ Py.LF)%string]
  /\ In ("Sub/f" ++ Py.LF)%string [("Sub/f" ++ Py.LF)%string]
  /\ Py.endswith ("Sub/f" ++ Py.LF) Py.LF = true.
Proof.
  split; [reflexivity|]. split; [now left|].
  apply (report_lines_terminated
           [("/Sub", ["//f"])] [("sub", ["g"])]
           [("Sub/f" ++ Py.LF)%string] ("Sub/f" ++ Py.LF)%string);
    [reflexivity | now left].
Defined.

(** ** The end-to-end scenario *)

(** C1, as the code has it: on the scenario the left-to-right report is
    the one line [sub1/y.txt] with its newline, and the right-to-left
    report is empty. *)
Theorem scenario_reports :
  parse Scenario.left_lines
  = Py.Ok [("sub1", ["x.txt"; "y.txt"]); ("sub2", ["z.txt"])]
  /\ parse Scenario.right_lines
     = Py.Ok [("sub1", ["x.txt"]); ("sub3", ["w.txt"])]
  /\ compare_lines Scenario.left_lines Scenario.right_lines
     = Py.Ok ([("sub1/y.txt" ++ Py.LF)%string], []).
Proof. repeat split; vm_compute; reflexivity. Qed.

(** C1 as stated fails: the left-to-right report is not the bare string
    [sub1/y.txt]. *)
Lemma scenario_bare_strings_refuted :
  compare_lines Scenario.left_lines Scenario.right_lines
  <> Py.Ok (["sub1/y.txt"], []).
Proof. vm_compute. intros H. discriminate H. Qed.

(** ** The path normalizer *)

(** C3, as the code has it: once the base path is set, a path shorter
    than the base path plus one character is answered with the empty
    string, the base path staying as it is; nothing is raised. *)
Theorem short_path_yields_empty (base rawPath : string) :
  String.length rawPath < String.length base + 1 ->
  PathParser.parse {| PathParser._base_path := Some base |} rawPath
  = Py.Ok ("", {| PathParser._base_path := Some base |}).
Proof.
  intros H. unfold PathParser.parse. cbn [PathParser._base_path].
  rewrite slice_from_past by lia. reflexivity.
Qed.

Lemma short_path_yields_empty_witness :
  String.length "./a" < String.length "./root" + 1
  /\ PathParser.parse Scenario.established "./a"
     = Py.Ok ("", Scenario.established).
Proof.
  split; [vm_compute; lia|].
  apply (short_path_yields_empty "./root" "./a"). vm_compute. lia.
Defined.

(** C3 as stated fails: the short path [./a] given to a parser whose
    base path is [./root] raises no MalformedPathError. *)
Lemma short_path_no_error :
  String.length "./a" < String.length "./root" + 1
  /\ ~ (exists e,
          PathParser.parse Scenario.established "./a" = Py.Raise e
          /\ Py.exn_class e = "MalformedPathError").
Proof.
  split; [vm_compute; lia|].
  intros [e [H _]]. vm_compute in H. discriminate H.
Qed.

(** ** The listing parser *)

(** C2, as the code has it: a blank line adds no directory key and
    leaves the current directory and the path normalizer as they are,
    but it goes through the entry branch: the empty file name is
    appended to the list of the current directory, the other lists
    staying as they are; when the current directory is not a key, the
    line raises KeyError. *)
Theorem blank_line_recorded (st : parse_state) (line : string) :
  is_blank line = true ->
  match Py.lookup (file_content st) (folder_path st) with
  | Some names =>
      exists st',
        parse_line st line = Py.Ok st'
        /\ folder_path st' = folder_path st
        /\ path_parser st' = path_parser st
        /\ Py.keys (file_content st') = Py.keys (file_content st)
        /\ Py.lookup (file_content st') (folder_path st)
           = Some (names ++ [""])
        /\ (forall k, k <> folder_path st ->
                      Py.lookup (file_content st') k
                      = Py.lookup (file_content st) k)
  | None => parse_line st line = Py.Raise (Py.KeyError (folder_path st))
  end.
Proof.
  intros Hblank.
  destruct (Py.lookup (file_content st) (folder_path st)) as [names|] eqn:E.
  - destruct (parse_line_entry st line names (blank_is_entry line Hblank) E)
      as [f [Hf Hstep]].
    rewrite (blank_entry_text line Hblank) in Hf.
    apply after_last_space_empty in Hf. subst f.
    eexists. split; [exact Hstep|]. cbn [folder_path path_parser file_content].
    repeat split.
    + apply keys_setitem_present. now apply lookup_some_keys with names.
    + apply lookup_setitem_same.
    + intros k Hk. now apply lookup_setitem_other.
  - now apply parse_line_entry_lost; [apply blank_is_entry|].
Qed.

Lemma blank_line_recorded_witness :
  is_blank Py.LF = true
  /\ exists st',
       parse_line Scenario.in_sub1 Py.LF = Py.Ok st'
       /\ folder_path st' = "sub1"
       /\ path_parser st' = Scenario.established
       /\ Py.keys (file_content st') = ["sub1"]
       /\ Py.lookup (file_content st') "sub1" = Some [""]
       /\ (forall k, k <> "sub1" ->
                     Py.lookup (file_content st') k
                     = Py.lookup [("sub1", @nil string)] k).
Proof.
  split; [reflexivity|].
  exact (blank_line_recorded Scenario.in_sub1 Py.LF eq_refl).
Defined.

(** C2 as stated fails: a blank line after a header is recorded as an
    entry with the empty file name. *)
Lemma blank_line_not_inert :
  is_blank "" = true
  /\ parse ["./root/sub1:"; ""] = Py.Ok [("sub1", [""])]
  /\ parse ["./root/sub1:"] = Py.Ok [("sub1", [])]
  /\ parse ["./root/sub1:"; ""] <> parse ["./root/sub1:"].
Proof.
  repeat split; vm_compute; try reflexivity. intros H. discriminate H.
Qed.

(** C4, as the code has it: when a line that is neither a header nor a
    summary comes before any header, the whole parse raises the
    built-in KeyError for the empty key, and no mapping is returned. *)
Theorem entry_before_header_key_error
        (before after : list string) (line : string) :
  Forall (fun l => is_header (Py.rstrip l) = false) before ->
  is_entry line = true ->
  parse (before ++ line :: after) = Py.Raise (Py.KeyError "").
Proof. apply parse_entry_before_header. Qed.

Lemma entry_before_header_key_error_witness :
  Forall (fun l => is_header (Py.rstrip l) = false) ["total 3"]
  /\ is_entry "x.txt" = true
  /\ parse (["total 3"] ++ "x.txt" :: ["./root/sub1:"; "y.txt"])
     = Py.Raise (Py.KeyError "").
Proof.
  split; [repeat constructor|]. split; [reflexivity|].
  apply (entry_before_header_key_error
           ["total 3"] ["./root/sub1:"; "y.txt"] "x.txt");
    [repeat constructor | reflexivity].
Defined.

(** C4 as stated fails: the parse of a lone entry line raises an
    exception whose class is KeyError, not UnexpectedEntryError. *)
Lemma entry_before_header_not_named :
  is_entry "x.txt" = true
  /\ parse ["x.txt"] = Py.Raise (Py.KeyError "")
  /\ ~ (exists e, parse ["x.txt"] = Py.Raise e
                  /\ Py.exn_class e = "UnexpectedEntryError").
Proof.
  split; [reflexivity|]. split; [reflexivity|].
  intros [e [H C]]. vm_compute in H. injection H as <-.
  vm_compute in C. discriminate C.
Qed.

(** C5, as the code has it: the file name appended for an entry line is
    what follows the last space character of the line, trimmed and
    without the slashes at its two ends; only the space separates, so
    the name holds no space but may hold a tab. *)
Theorem entry_filename_after_last_space
        (st : parse_state) (line : string) (names : list string) :
  is_entry line = true ->
  Py.lookup (file_content st) (folder_path st) = Some names ->
  exists f,
    after_last_space (entry_text line) f
    /\ parse_line st line
       = Py.Ok {| folder_path := folder_path st;
                  file_content :=
                    Py.setitem (file_content st) (folder_path st)
                               (names ++ [f]);
                  path_parser := path_parser st |}.
Proof. apply parse_line_entry. Qed.

Lemma entry_filename_after_last_space_witness :
  is_entry "-rw-r--r-- 1 u g 0 Jan 1 x.txt" = true
  /\ Py.lookup (file_content Scenario.in_sub1)
               (folder_path Scenario.in_sub1) = Some []
  /\ exists f,
       after_last_space (entry_text "-rw-r--r-- 1 u g 0 Jan 1 x.txt") f
       /\ parse_line Scenario.in_sub1 "-rw-r--r-- 1 u g 0 Jan 1 x.txt"
          = Py.Ok {| folder_path := "sub1";
                     file_content := Py.setitem [("sub1", [])] "sub1" ([] ++ [f]);
                     path_parser := Scenario.established |}.
Proof.
  split; [reflexivity|]. split; [reflexivity|].
  apply (entry_filename_after_last_space
           Scenario.in_sub1 "-rw-r--r-- 1 u g 0 Jan 1 x.txt" []);
    reflexivity.
Defined.

(** C5 as stated fails: in an entry line whose fields are separated by a
    tab the name appended is the whole line, not the token after the
    tab. *)
Lemma tab_is_not_a_separator :
  is_entry Scenario.tab_line = true
  /\ last_whitespace_token (entry_text Scenario.tab_line) = "b.txt"
  /\ parse_line Scenario.in_sub1 Scenario.tab_line
     = Py.Ok {| folder_path := "sub1";
                file_content := [("sub1", [Scenario.tab_line])];
                path_parser := Scenario.established |}
  /\ Scenario.tab_line <> "b.txt".
Proof.
  repeat split; vm_compute; try reflexivity. intros H. discriminate H.
Qed.

(* ================================================================== *)
(** * Further facts about the parser *)
(* ================================================================== *)

Section MoreStrings.

Import Shape.

Lemma rstrip_by_all (p : ascii -> bool) (w : string) :
  all_chars p w = true -> Py.rstrip_by p w = "".
Proof.
  induction w as [|c w IH]; simpl; [reflexivity|].
  intros H. apply andb_true_iff in H as [Hc Hw].
  now rewrite (IH Hw), Hc.
Qed.

Lemma rstrip_by_padded (p : ascii -> bool) (s w : string) :
  all_chars p w = true -> Py.rstrip_by p (s ++ w) = Py.rstrip_by p s.
Proof.
  intros H. induction s as [|c s IH]; cbn [String.append Py.rstrip_by].
  - now apply rstrip_by_all.
  - now rewrite IH.
Qed.

Lemma rstrip_by_cons_kept (p : ascii -> bool) (c : ascii) (s : string) :
  s <> "" -> Py.rstrip_by p s = s -> Py.rstrip_by p (String c s) = String c s.
Proof.
  intros Hne E. cbn [Py.rstrip_by]. rewrite E.
  destruct s; [contradiction | reflexivity].
Qed.

Lemma slice_from_append (a b : string) :
  Py.slice_from (String.length a) (a ++ b) = b.
Proof. induction a as [|c a IH]; simpl; [now destruct b | exact IH]. Qed.

Lemma slice_to_append (a b : string) :
  Py.slice_to (String.length a) (a ++ b) = a.
Proof.
  induction a as [|c a IH]; simpl; [now destruct b | now rewrite IH].
Qed.

Lemma length_append (a b : string) :
  String.length (a ++ b) = String.length a + String.length b.
Proof. induction a as [|c a IH]; simpl; [reflexivity | now rewrite IH]. Qed.

Lemma append_assoc (a b c : string) : ((a ++ b) ++ c = a ++ b ++ c)%string.
Proof. induction a as [|x a IH]; simpl; [reflexivity | now rewrite IH]. Qed.

Lemma rfind_succ_absent (t : string) :
  has_slash t = false -> Py.rfind_succ "/" t = 0.
Proof.
  unfold has_slash.
  induction t as [|c t IH]; cbn [Py.char_in Py.rfind_succ]; [reflexivity|].
  intros H. apply orb_false_iff in H as [Hc Ht].
  rewrite (IH Ht). rewrite Ascii.eqb_sym in Hc. now rewrite Hc.
Qed.

Lemma rfind_succ_last (h t : string) :
  has_slash t = false ->
  Py.rfind_succ "/" (h ++ "/" ++ t) = String.length h + 1.
Proof.
  intros Ht. change ("/" ++ t)%string with (String "/" t).
  induction h as [|c h IH]; cbn [String.append Py.rfind_succ String.length].
  - rewrite (rfind_succ_absent t Ht). reflexivity.
  - rewrite IH, !Nat.add_1_r. reflexivity.
Qed.

End MoreStrings.

Section Normalizer.

Import Shape.

Lemma lstrip_by_padded (p : ascii -> bool) (pre s : string) :
  all_chars p pre = true -> Py.lstrip_by p (pre ++ s) = Py.lstrip_by p s.
Proof.
  induction pre as [|c pre IH]; cbn [all_chars String.append Py.lstrip_by].
  - reflexivity.
  - intros H. apply andb_true_iff in H as [Hc Hpre]. now rewrite Hc, IH.
Qed.

Lemma rstrip_by_prefixed (p : ascii -> bool) (pre s : string) :
  s <> "" -> Py.rstrip_by p s = s -> Py.rstrip_by p (pre ++ s) = (pre ++ s)%string.
Proof.
  intros Hne E. induction pre as [|c pre IH]; cbn [String.append].
  - exact E.
  - apply rstrip_by_cons_kept; [|exact IH].
    destruct pre; [exact Hne | discriminate].
Qed.

Lemma all_chars_repeat (c : ascii) (n : nat) :
  all_chars (Py.char_in (String c "")) (Py.repeat_char c n) = true.
Proof.
  induction n as [|n IH]; cbn [Py.repeat_char all_chars].
  - reflexivity.
  - rewrite IH, andb_true_r. cbn [Py.char_in].
    now rewrite Ascii.eqb_refl.
Qed.

(** [posixpath.split] cuts at the last slash and keeps the slashes that
    open the path. *)
Lemma posix_split_last (pre h t : string) :
  all_chars (Py.char_in "/") pre = true ->
  trimmed_path h -> has_slash t = false ->
  PosixPath.split (pre ++ h ++ "/" ++ t) = ((pre ++ h)%string, t).
Proof.
  intros Hpre [Hne [_ Hr]] Ht. unfold PosixPath.split. cbv zeta.
  rewrite <- (append_assoc pre h ("/" ++ t)).
  rewrite (rfind_succ_last (pre ++ h) t Ht).
  rewrite <- (append_assoc (pre ++ h) "/" t).
  assert (Hlen : String.length ((pre ++ h) ++ "/") = String.length (pre ++ h) + 1)
    by (rewrite length_append; reflexivity).
  rewrite <- Hlen.
  rewrite slice_to_append, slice_from_append.
  assert (Hstrip : Py.rstrip_chars PosixPath.sep ((pre ++ h) ++ "/")
                   = (pre ++ h)%string).
  { unfold Py.rstrip_chars, PosixPath.sep.
    rewrite rstrip_by_padded by reflexivity.
    now apply rstrip_by_prefixed. }
  assert (Hnot : String.eqb ((pre ++ h) ++ "/")
                   (Py.repeat_char "/" (String.length ((pre ++ h) ++ "/")))
                 = false).
  { apply String.eqb_neq. intros E.
    assert (Hall : Py.rstrip_chars PosixPath.sep ((pre ++ h) ++ "/") = "").
    { rewrite E. apply rstrip_by_all. apply all_chars_repeat. }
    rewrite Hstrip in Hall. destruct pre; [now apply Hne | discriminate]. }
  rewrite Hnot.
  assert (Hnonempty : String.eqb ((pre ++ h) ++ "/") "" = false).
  { apply String.eqb_neq. intros E.
    apply (f_equal String.length) in E. rewrite Hlen in E. simpl in E. lia. }
  rewrite Hnonempty. cbn [negb andb]. now rewrite Hstrip.
Qed.

Lemma base_of_last (pre h t : string) :
  all_chars (Py.char_in "/") pre = true ->
  trimmed_path h -> has_slash t = false ->
  base_of (pre ++ h ++ "/" ++ t) = h.
Proof.
  intros Hpre Hh Ht. unfold base_of.
  rewrite (posix_split_last pre h t Hpre Hh Ht). cbn [fst].
  unfold Py.lstrip_chars. rewrite lstrip_by_padded by exact Hpre.
  now destruct Hh as [_ [Hl _]].
Qed.

Lemma parse_new (path : string) :
  PathParser.parse PathParser.new path
  = Py.Ok (key_of (base_of path) path,
           {| PathParser._base_path := Some (base_of path) |}).
Proof.
  unfold PathParser.parse, PathParser.new, key_of, base_of.
  cbn [PathParser._base_path].
  now destruct (PosixPath.split path) as [head tail].
Qed.

End Normalizer.

Section Steps.

Import Comparer Spec Shape.

Lemma for_each_invariant {A S : Type} (body : S -> A -> Py.result S)
      (P : S -> Prop) :
  (forall s x s', body s x = Py.Ok s' -> P s -> P s') ->
  forall xs s s', Py.for_each body xs s = Py.Ok s' -> P s -> P s'.
Proof.
  intros Hstep xs. induction xs as [|x xs IH]; intros s s' H Hs; simpl in H.
  - injection H as <-. exact Hs.
  - destruct (body s x) as [s1|e] eqn:E; simpl in H; [|discriminate].
    exact (IH s1 s' H (Hstep s x s1 E Hs)).
Qed.

Lemma getitem_last_last {A : Type} (xs : list A) (x d : A) :
  Py.getitem_last xs = Py.Ok x -> last xs d = x.
Proof.
  induction xs as [|y xs IH]; [discriminate|].
  destruct xs as [|z xs]; intros H.
  - now injection H.
  - cbn [last]. apply IH. exact H.
Qed.

Lemma keys_setitem_absent {V : Type} (d : Py.dict V) (k : string) (v : V) :
  ~ In k (Py.keys d) -> Py.keys (Py.setitem d k v) = Py.keys d ++ [k].
Proof.
  induction d as [|[k' v'] d IH]; simpl; [reflexivity|].
  intros H. destruct (String.eqb_spec k k') as [->|Hne].
  - exfalso. apply H. now left.
  - simpl. f_equal. apply IH. intros F. apply H. now right.
Qed.

Lemma parse_line_header (st : parse_state) (line : string) :
  is_header (Py.rstrip line) = true ->
  parse_line st line = Py.Ok (after_header st line).
Proof.
  unfold is_header, parse_line, after_header. cbv zeta. intros ->.
  unfold PathParser.parse, header_path, key_of, base_of.
  destruct (PathParser._base_path (path_parser st)) as [b|].
  - cbn [Py.bind]. now destruct (Py.contains _ _).
  - destruct (PosixPath.split _) as [head tail]. cbn [Py.bind fst removelast Py.join].
    now destruct (Py.contains _ _).
Qed.

Lemma keys_after_header (st : parse_state) (line : string) :
  Py.keys (file_content (after_header st line))
  = add_key (Py.keys (file_content st)) (folder_path (after_header st line)).
Proof.
  unfold after_header, add_key. cbv zeta. cbn [file_content folder_path].
  unfold Py.contains.
  destruct (Py.str_in _ (Py.keys (file_content st))) eqn:E; [reflexivity|].
  apply keys_setitem_absent. intros F. apply str_in_In in F. congruence.
Qed.

(** What a turn of the loop that does not raise has done. *)
Lemma parse_line_ok (st st' : parse_state) (line : string) :
  parse_line st line = Py.Ok st' ->
  (is_header (Py.rstrip line) = true /\ st' = after_header st line)
  \/ (is_header (Py.rstrip line) = false
      /\ is_summary (Py.rstrip line) = true /\ st' = st)
  \/ (is_entry line = true
      /\ exists names,
           Py.lookup (file_content st) (folder_path st) = Some names
           /\ st' = {| folder_path := folder_path st;
                       file_content :=
                         Py.setitem (file_content st) (folder_path st)
                                    (names ++ [file_name line]);
                       path_parser := path_parser st |}).
Proof.
  intros H.
  destruct (is_header (Py.rstrip line)) eqn:Hh.
  - left. rewrite (parse_line_header st line Hh) in H. injection H as <-.
    now split.
  - right. destruct (is_summary (Py.rstrip line)) eqn:Hs.
    + left. rewrite (parse_line_summary st line Hh Hs) in H.
      injection H as <-. now repeat split.
    + right.
      assert (He : is_entry line = true) by (unfold is_entry; now rewrite Hh, Hs).
      split; [exact He|].
      destruct (Py.lookup (file_content st) (folder_path st)) as [names|] eqn:L.
      * exists names. split; [reflexivity|].
        destruct (parse_line_entry st line names He L) as [f [_ Hstep]].
        assert (Hf : file_name line = f).
        { destruct (split_last_field (entry_text line)) as [g [Hg _]].
          unfold file_name. rewrite (getitem_last_last _ g "" Hg).
          unfold parse_line in Hstep. cbv zeta in Hstep.
          unfold is_header in Hh. unfold is_summary in Hs.
          rewrite Hh, Hs in Hstep. cbn [negb] in Hstep.
          unfold entry_text in Hg. rewrite Hg in Hstep.
          unfold append_file, Py.getitem in Hstep. rewrite L in Hstep.
          cbn [Py.bind] in Hstep. injection Hstep as Hstep.
          apply (f_equal (fun d => Py.lookup d (folder_path st))) in Hstep.
          rewrite !lookup_setitem_same in Hstep.
          injection Hstep as Hstep. apply app_inv_head in Hstep.
          now injection Hstep. }
        rewrite Hf. congruence.
      * rewrite (parse_line_entry_lost st line He L) in H. discriminate.
Qed.

End Steps.

Section Invariants.

Import Comparer Spec Shape.

Lemma in_add_key (ks : list string) (k : string) : In k (add_key ks k).
Proof.
  unfold add_key. destruct (Py.str_in k ks) eqn:E.
  - now apply str_in_In.
  - apply in_or_app. right. now left.
Qed.

Lemma str_in_app (k : string) (xs ys : list string) :
  Py.str_in k (xs ++ ys) = Py.str_in k xs || Py.str_in k ys.
Proof. unfold Py.str_in. apply existsb_app. Qed.

Lemma distinct_snoc (ks : list string) (k : string) :
  Py.distinct ks = true -> Py.str_in k ks = false ->
  Py.distinct (ks ++ [k]) = true.
Proof.
  induction ks as [|x ks IH]; intros Hd Hk; simpl; [reflexivity|].
  simpl in Hd, Hk. apply andb_true_iff in Hd as [Hx Hd].
  apply orb_false_iff in Hk as [Hkx Hk].
  rewrite (IH Hd Hk), andb_true_r.
  rewrite str_in_app. apply negb_true_iff in Hx. rewrite Hx.
  cbn [Py.str_in existsb]. rewrite String.eqb_sym, Hkx. reflexivity.
Qed.

Lemma distinct_add_key (ks : list string) (k : string) :
  Py.distinct ks = true -> Py.distinct (add_key ks k) = true.
Proof.
  intros H. unfold add_key. destruct (Py.str_in k ks) eqn:E; [exact H|].
  now apply distinct_snoc.
Qed.

(** Every turn keeps the keys apart. *)
Lemma parse_line_wf (st st' : parse_state) (line : string) :
  parse_line st line = Py.Ok st' ->
  Py.wf (file_content st) -> Py.wf (file_content st').
Proof.
  unfold Py.wf. intros H Hwf.
  destruct (parse_line_ok st st' line H)
    as [[_ ->]|[[_ [_ ->]]|[_ [names [L ->]]]]].
  - rewrite keys_after_header. now apply distinct_add_key.
  - exact Hwf.
  - cbn [file_content]. rewrite keys_setitem_present; [exact Hwf|].
    now apply lookup_some_keys with names.
Qed.

(** Once the current directory is registered no turn raises, and the
    current directory stays registered. *)
Lemma parse_line_attributed (st : parse_state) (line : string) :
  attributed st ->
  exists st', parse_line st line = Py.Ok st' /\ attributed st'.
Proof.
  unfold attributed. intros Hin.
  destruct (is_header (Py.rstrip line)) eqn:Hh.
  - exists (after_header st line). split; [now apply parse_line_header|].
    rewrite keys_after_header. apply in_add_key.
  - destruct (is_summary (Py.rstrip line)) eqn:Hs.
    + exists st. split; [now apply parse_line_summary | exact Hin].
    + assert (He : is_entry line = true)
        by (unfold is_entry; now rewrite Hh, Hs).
      destruct (lookup_keys _ _ Hin) as [names L].
      destruct (parse_line_entry st line names He L) as [f [_ Hstep]].
      eexists. split; [exact Hstep|]. cbn [folder_path file_content].
      now rewrite keys_setitem_present.
Qed.

Lemma parse_loop_attributed (lines : list string) (st : parse_state) :
  attributed st ->
  exists st', parse_loop lines st = Py.Ok st' /\ attributed st'.
Proof.
  unfold parse_loop. revert st.
  induction lines as [|line lines IH]; intros st Hst.
  - now exists st.
  - destruct (parse_line_attributed st line Hst) as [st1 [E H1]].
    cbn [Py.for_each]. rewrite E. cbn [Py.bind]. now apply IH.
Qed.

Lemma after_header_attributed (st : parse_state) (line : string) :
  attributed (after_header st line).
Proof. unfold attributed. rewrite keys_after_header. apply in_add_key. Qed.

(** From the start the loop either runs to its end or meets an entry
    before any header. *)
Lemma parse_loop_outcome (lines : list string) :
  (exists st', parse_loop lines parse_init = Py.Ok st')
  \/ entry_before_header lines.
Proof.
  induction lines as [|line lines IH].
  - left. now exists parse_init.
  - destruct (is_header (Py.rstrip line)) eqn:Hh.
    + left. unfold parse_loop. cbn [Py.for_each].
      rewrite (parse_line_header parse_init line Hh). cbn [Py.bind].
      destruct (parse_loop_attributed lines _
                  (after_header_attributed parse_init line)) as [st' [E _]].
      now exists st'.
    + destruct (is_summary (Py.rstrip line)) eqn:Hs.
      * destruct IH as [[st' E]|[before [l [after [-> [Hall He]]]]]].
        -- left. exists st'. unfold parse_loop. cbn [Py.for_each].
           now rewrite (parse_line_summary parse_init line Hh Hs).
        -- right. exists (line :: before), l, after.
           repeat split; [|exact He]. now constructor.
      * right. exists [], line, lines. repeat split; [constructor|].
        unfold is_entry. now rewrite Hh, Hs.
Qed.

Lemma parse_of_loop (lines : list string) (st' : parse_state) :
  parse_loop lines parse_init = Py.Ok st' ->
  parse lines = Py.Ok (file_content st').
Proof. unfold parse. now intros ->. Qed.

Lemma loop_of_parse (lines : list string) (d : listing) :
  parse lines = Py.Ok d ->
  exists st', parse_loop lines parse_init = Py.Ok st' /\ file_content st' = d.
Proof.
  unfold parse. destruct (parse_loop lines parse_init) as [st'|e]; simpl.
  - intros H. injection H as <-. now exists st'.
  - discriminate.
Qed.

(** The keys grow by the keys of the headers, each added when it is
    first seen. *)
Lemma parse_loop_keys (lines : list string) :
  forall (st st' : parse_state) (b : string),
    PathParser._base_path (path_parser st) = Some b ->
    parse_loop lines st = Py.Ok st' ->
    Py.keys (file_content st')
    = fold_left add_key (map (key_of b) (header_paths lines))
                (Py.keys (file_content st)).
Proof.
  unfold parse_loop, header_paths.
  induction lines as [|line lines IH]; intros st st' b Hb H; simpl in H.
  - now injection H as <-.
  - destruct (parse_line st line) as [st1|e] eqn:E; simpl in H; [|discriminate].
    destruct (parse_line_ok st st1 line E)
      as [[Hh ->]|[[Hh [_ ->]]|[He [names [L ->]]]]].
    + cbn [filter]. rewrite Hh. cbn [map fold_left].
      assert (Hb' : PathParser._base_path (path_parser (after_header st line))
                    = Some b)
        by (unfold after_header; cbn [path_parser PathParser._base_path];
            now rewrite Hb).
      rewrite (IH (after_header st line) st' b Hb' H).
      rewrite keys_after_header. unfold after_header. cbn [folder_path].
      now rewrite Hb.
    + cbn [filter]. rewrite Hh. now apply IH.
    + unfold is_entry in He. apply andb_true_iff in He as [Hh _].
      apply negb_true_iff in Hh. cbn [filter]. rewrite Hh.
      rewrite (IH _ st' b (Hb : PathParser._base_path (path_parser
                 {| folder_path := folder_path st;
                    file_content :=
                      Py.setitem (file_content st) (folder_path st)
                                 (names ++ [file_name line]);
                    path_parser := path_parser st |}) = Some b) H).
      cbn [file_content].
      rewrite keys_setitem_present; [reflexivity|].
      now apply lookup_some_keys with names.
Qed.

Lemma parse_loop_keys_init (lines : list string) (st' : parse_state) :
  parse_loop lines parse_init = Py.Ok st' ->
  Py.keys (file_content st') = first_seen (header_keys lines).
Proof.
  unfold first_seen, header_keys, header_paths.
  induction lines as [|line lines IH]; intros H.
  - unfold parse_loop in H. simpl in H. now injection H as <-.
  - unfold parse_loop in H. cbn [Py.for_each] in H.
    destruct (parse_line parse_init line) as [st1|e] eqn:E; simpl in H;
      [|discriminate].
    destruct (parse_line_ok parse_init st1 line E)
      as [[Hh ->]|[[Hh [_ ->]]|[_ [names [L _]]]]].
    + cbn [filter]. rewrite Hh. cbn [map fold_left].
      rewrite (parse_loop_keys lines (after_header parse_init line) st'
                 (base_of (header_path line)) eq_refl H).
      reflexivity.
    + cbn [filter]. rewrite Hh. now apply IH.
    + discriminate L.
Qed.

End Invariants.

Section Blocks.

Import Comparer Spec Shape.

Lemma parse_line_entry_name (st : parse_state) (line : string)
      (names : list string) :
  is_entry line = true ->
  Py.lookup (file_content st) (folder_path st) = Some names ->
  parse_line st line
  = Py.Ok {| folder_path := folder_path st;
             file_content :=
               Py.setitem (file_content st) (folder_path st)
                          (names ++ [file_name line]);
             path_parser := path_parser st |}.
Proof.
  intros He L.
  destruct (parse_line_entry st line names He L) as [f [_ Hstep]].
  assert (He' := He). unfold is_entry in He'.
  apply andb_true_iff in He' as [Hnh Hns].
  apply negb_true_iff in Hnh, Hns.
  destruct (parse_line_ok st _ line Hstep)
    as [[Hh _]|[[_ [Hs _]]|[_ [names' [L' E]]]]].
  - congruence.
  - congruence.
  - rewrite Hstep, E. rewrite L in L'. now injection L' as <-.
Qed.

(** A run of entry lines. *)
Lemma entries_loop (lines : list string) :
  forall (st : parse_state) (names : list string),
    Forall (fun l => is_entry l = true) lines ->
    Py.lookup (file_content st) (folder_path st) = Some names ->
    exists st',
      parse_loop lines st = Py.Ok st'
      /\ folder_path st' = folder_path st
      /\ path_parser st' = path_parser st
      /\ Py.keys (file_content st') = Py.keys (file_content st)
      /\ Py.lookup (file_content st') (folder_path st)
         = Some (names ++ map file_name lines)
      /\ (forall k, k <> folder_path st ->
                    Py.lookup (file_content st') k
                    = Py.lookup (file_content st) k).
Proof.
  unfold parse_loop.
  induction lines as [|line lines IH]; intros st names Hall L.
  - exists st. cbn [Py.for_each map]. rewrite app_nil_r. now repeat split.
  - inversion Hall as [|? ? He Hall']; subst.
    cbn [Py.for_each]. rewrite (parse_line_entry_name st line names He L).
    cbn [Py.bind].
    set (st1 := {| folder_path := folder_path st;
                   file_content :=
                     Py.setitem (file_content st) (folder_path st)
                                (names ++ [file_name line]);
                   path_parser := path_parser st |}).
    assert (L1 : Py.lookup (file_content st1) (folder_path st1)
                 = Some (names ++ [file_name line]))
      by apply lookup_setitem_same.
    destruct (IH st1 _ Hall' L1) as [st' [E [Hf [Hp [Hk [Hl Ho]]]]]].
    subst st1. cbn [folder_path path_parser file_content] in *.
    exists st'. split; [exact E|].
    repeat split; try assumption.
    + rewrite Hk. apply keys_setitem_present.
      now apply lookup_some_keys with names.
    + rewrite Hl, <- app_assoc. reflexivity.
    + intros k Hne. rewrite (Ho k Hne). now apply lookup_setitem_other.
Qed.

Lemma dict_single {V : Type} (d : Py.dict V) (k : string) (v : V) :
  Py.keys d = [k] -> Py.lookup d k = Some v -> d = [(k, v)].
Proof.
  destruct d as [|[k' v'] [|x d]]; try discriminate.
  simpl. intros E. injection E as ->. rewrite String.eqb_refl.
  now intros H; injection H as ->.
Qed.

Lemma header_then_entries (header : string) (entries : list string) :
  is_header (Py.rstrip header) = true ->
  Forall (fun l => is_entry l = true) entries ->
  parse (header :: entries)
  = Py.Ok [(key_of (base_of (header_path header)) (header_path header),
            map file_name entries)].
Proof.
  intros Hh Hall. unfold parse, parse_loop. cbn [Py.for_each].
  rewrite (parse_line_header parse_init header Hh). cbn [Py.bind].
  set (key := key_of (base_of (header_path header)) (header_path header)).
  set (st0 := after_header parse_init header).
  assert (L0 : Py.lookup (file_content st0) (folder_path st0) = Some [])
    by (unfold st0, after_header; cbn; now rewrite String.eqb_refl).
  destruct (entries_loop entries st0 [] Hall L0)
    as [st' [E [_ [_ [Hk [Hl _]]]]]].
  unfold parse_loop in E. rewrite E. cbn [Py.bind]. f_equal.
  apply dict_single; [exact Hk | exact Hl].
Qed.

Lemma summaries_only (lines : list string) :
  Forall (fun l => is_header (Py.rstrip l) = false
                   /\ is_summary (Py.rstrip l) = true) lines ->
  parse lines = Py.Ok [].
Proof.
  intros Hall. unfold parse, parse_loop.
  induction Hall as [|line lines [Hh Hs] _ IH]; [reflexivity|].
  cbn [Py.for_each]. rewrite (parse_line_summary parse_init line Hh Hs).
  exact IH.
Qed.

Lemma parse_line_padded (st : parse_state) (line w : string) :
  all_space w = true -> parse_line st (line ++ w) = parse_line st line.
Proof.
  intros Hw. unfold parse_line. cbv zeta.
  unfold Py.rstrip. now rewrite (rstrip_by_padded Py.isspace line w Hw).
Qed.

Lemma parse_loop_padded (w : string) (lines : list string) :
  all_space w = true ->
  forall st, parse_loop (map (fun l => (l ++ w)%string) lines) st
             = parse_loop lines st.
Proof.
  intros Hw. unfold parse_loop.
  induction lines as [|line lines IH]; intros st; [reflexivity|].
  cbn [map Py.for_each]. rewrite (parse_line_padded st line w Hw).
  destruct (parse_line st line) as [st1|e]; [apply IH | reflexivity].
Qed.

Lemma parse_loop_skips_summary (before after : list string) (s : string)
      (st : parse_state) :
  is_header (Py.rstrip s) = false -> is_summary (Py.rstrip s) = true ->
  parse_loop (before ++ s :: after) st = parse_loop (before ++ after) st.
Proof.
  intros Hh Hs. unfold parse_loop. rewrite !for_each_app.
  destruct (Py.for_each parse_line before st) as [st1|e]; [|reflexivity].
  cbn [Py.bind Py.for_each]. now rewrite (parse_line_summary st1 s Hh Hs).
Qed.

End Blocks.

(* ================================================================== *)
(** * Further facts about the difference engine *)
(* ================================================================== *)

Section MoreReports.

Import Comparer Spec Shape.

Lemma keys_in {V : Type} (d : Py.dict V) (k : string) (v : V) :
  In (k, v) d -> In k (Py.keys d).
Proof. intros H. change k with (fst (k, v)). now apply in_map. Qed.

Lemma in_accumulated_report (left right : listing) (s : string) :
  In s (accumulated_report left right) <-> reported left right s.
Proof.
  unfold accumulated_report, reported, matches_of, missing_lines. split.
  - intros H.
    apply in_flat_map in H as [[lk lfs] [Hl H]].
    apply in_flat_map in H as [[rk rfs] [Hr H]].
    apply filter_In in Hr as [Hr Hm]. cbn [fst snd] in *.
    apply in_map_iff in H as [f [<- Hf]].
    apply filter_In in Hf as [Hf Hnot].
    exists lk, lfs, rk, rfs, f. repeat split; try assumption.
    intros Hin. apply str_in_In in Hin. rewrite Hin in Hnot. discriminate.
  - intros [lk [lfs [rk [rfs [f [Hl [Hr [Hm [Hf [Hnot ->]]]]]]]]]].
    apply in_flat_map. exists (lk, lfs). split; [exact Hl|].
    apply in_flat_map. exists (rk, rfs). split.
    + apply filter_In. now split.
    + cbn [fst snd]. apply in_map. apply filter_In. split; [exact Hf|].
      apply negb_true_iff. destruct (Py.str_in f rfs) eqn:E; [|reflexivity].
      exfalso. apply Hnot. now apply str_in_In.
Qed.

Lemma missing_lines_covered (left_key : string)
      (left_filenames right_filenames : list string) :
  (forall f, In f left_filenames -> In f right_filenames) ->
  missing_lines left_key left_filenames right_filenames = [].
Proof.
  intros H. unfold missing_lines.
  induction left_filenames as [|f fs IH]; [reflexivity|].
  cbn [filter].
  assert (Hf : Py.str_in f right_filenames = true)
    by (apply str_in_In; apply H; now left).
  rewrite Hf. cbn [negb]. apply IH. intros g Hg. apply H. now right.
Qed.

Lemma wf_unique (d : listing) (k : string) (v v' : list string) :
  Py.wf d -> In (k, v) d -> In (k, v') d -> v = v'.
Proof.
  intros Hwf H H'.
  pose proof (lookup_wf d k v Hwf H) as E.
  pose proof (lookup_wf d k v' Hwf H') as E'.
  congruence.
Qed.

Lemma accumulated_report_self (d : listing) :
  Py.wf d -> folded_apart d -> accumulated_report d d = [].
Proof.
  intros Hwf Hapart. unfold accumulated_report.
  apply flat_map_nothing. intros [lk lfs] Hl.
  apply flat_map_nothing. intros [rk rfs] Hr.
  unfold matches_of in Hr. apply filter_In in Hr as [Hr Hm].
  cbn [fst snd] in *.
  assert (E : lk = rk)
    by (apply Hapart; [now apply keys_in with lfs
                      |now apply keys_in with rfs|exact Hm]).
  subst rk. rewrite (wf_unique d lk rfs lfs Hwf Hr Hl).
  now apply missing_lines_covered.
Qed.

Lemma distinct_app_left (xs ys : list string) :
  Py.distinct (xs ++ ys) = true -> Py.distinct xs = true.
Proof.
  induction xs as [|x xs IH]; [reflexivity|]. simpl. intros H.
  apply andb_true_iff in H as [Hx H]. rewrite (IH H), andb_true_r.
  apply negb_true_iff in Hx. rewrite str_in_app in Hx.
  apply orb_false_iff in Hx as [Hx _]. now rewrite Hx.
Qed.

Lemma distinct_app_right (xs ys : list string) :
  Py.distinct (xs ++ ys) = true -> Py.distinct ys = true.
Proof.
  induction xs as [|x xs IH]; [trivial|]. simpl. intros H.
  apply andb_true_iff in H as [_ H]. now apply IH.
Qed.

Lemma wf_app (d1 d2 : listing) :
  Py.wf (d1 ++ d2) -> Py.wf d1 /\ Py.wf d2.
Proof.
  unfold Py.wf, Py.keys. rewrite map_app. intros H. split.
  - now apply distinct_app_left with (map fst d2).
  - now apply distinct_app_right with (map fst d1).
Qed.

Lemma count_missing_lines (left_key f : string)
      (left_filenames right_filenames : list string) :
  ~ In f right_filenames ->
  count_occ string_dec left_filenames f
  <= count_occ string_dec
       (missing_lines left_key left_filenames right_filenames)
       (report_line left_key f).
Proof.
  intros Hnot. unfold missing_lines.
  assert (Hf : Py.str_in f right_filenames = false).
  { destruct (Py.str_in f right_filenames) eqn:E; [|reflexivity].
    exfalso. apply Hnot. now apply str_in_In. }
  induction left_filenames as [|g gs IH]; [apply Nat.le_refl|].
  cbn [count_occ filter].
  destruct (string_dec g f) as [->|Hne].
  - rewrite Hf. cbn [negb map count_occ].
    destruct (string_dec (report_line left_key f) (report_line left_key f));
      [|contradiction]. now apply le_n_S.
  - destruct (negb (Py.str_in g right_filenames)); [|exact IH].
    cbn [map count_occ].
    destruct (string_dec (report_line left_key g) (report_line left_key f));
      [now apply Nat.le_le_succ_r | exact IH].
Qed.

Lemma count_flat_map {A : Type} (g : A -> list string) (xs : list A)
      (a : A) (s : string) :
  In a xs ->
  count_occ string_dec (g a) s <= count_occ string_dec (flat_map g xs) s.
Proof.
  induction xs as [|x xs IH]; [contradiction|].
  intros [->|H]; cbn [flat_map]; rewrite count_occ_app.
  - apply Nat.le_add_r.
  - specialize (IH H). lia.
Qed.

Lemma count_accumulated_report (left right : listing)
      (left_key right_key f : string)
      (left_filenames right_filenames : list string) :
  In (left_key, left_filenames) left ->
  In (right_key, right_filenames) right ->
  same_directory left_key right_key = true ->
  ~ In f right_filenames ->
  count_occ string_dec left_filenames f
  <= count_occ string_dec (accumulated_report left right)
               (report_line left_key f).
Proof.
  intros Hl Hr Hm Hnot. unfold accumulated_report.
  eapply Nat.le_trans;
    [|apply (count_flat_map _ left (left_key, left_filenames) _ Hl)].
  cbn [fst snd].
  eapply Nat.le_trans;
    [|apply (count_flat_map _ (matches_of left_key right)
               (right_key, right_filenames))].
  - cbn [snd]. now apply count_missing_lines.
  - unfold matches_of. apply filter_In. now split.
Qed.

Lemma find_mismatched_left_raise (left right : listing) (e : Py.exn) :
  find_mismatched_left left right = Py.Raise e ->
  e = Py.AssertionError /\ (left = [] \/ right = []).
Proof.
  intros H.
  destruct left as [|l ls].
  { rewrite find_mismatched_left_refused in H by now left.
    injection H as <-. split; [reflexivity | now left]. }
  destruct right as [|r rs].
  { rewrite find_mismatched_left_refused in H by now right.
    injection H as <-. split; [reflexivity | now right]. }
  rewrite find_mismatched_left_report in H by discriminate. discriminate.
Qed.

Lemma startswith_iff (s x : string) :
  Py.startswith s x = true <-> exists rest, s = (x ++ rest)%string.
Proof.
  unfold Py.startswith. revert s.
  induction x as [|c x IH]; intros s.
  - split; [intros _; now exists s | intros _; now destruct s].
  - destruct s as [|d s]; cbn [String.prefix].
    + split; [discriminate | intros [rest E]; discriminate E].
    + destruct (ascii_dec c d) as [->|Hne].
      * rewrite IH. split; intros [rest E]; exists rest.
        -- cbn [String.append]. now rewrite E.
        -- cbn [String.append] in E. now injection E.
      * split; [discriminate|]. intros [rest E].
        cbn [String.append] in E. injection E as E _. congruence.
Qed.

Lemma endswith_iff (s x : string) :
  Py.endswith s x = true <-> exists before, s = (before ++ x)%string.
Proof.
  split.
  - induction s as [|c s IH]; cbn [Py.endswith]; intros H.
    + rewrite orb_false_r in H. apply String.eqb_eq in H. now exists "".
    + apply orb_true_iff in H as [H|H].
      * apply String.eqb_eq in H. now exists "".
      * destruct (IH H) as [before ->]. now exists (String c before).
  - intros [before ->]. apply endswith_append.
Qed.

End MoreReports.

Section Constructor.

Import Comparer Spec Shape.

Variable fs : filesystem.

Lemma check_paths_fold (paths : list string) :
  forall (msg : string) (class_paths : list string),
  exists msg',
    fold_left (check_path fs) paths (msg, class_paths)
    = (msg', class_paths ++ filter (regular fs) paths)
    /\ String.eqb msg' "" = String.eqb msg "" && forallb (regular fs) paths.
Proof.
  induction paths as [|f paths IH]; intros msg cp.
  - exists msg. cbn [fold_left filter forallb].
    now rewrite app_nil_r, andb_true_r.
  - cbn [fold_left filter forallb].
    destruct (isdir fs f) eqn:Hd.
    + assert (Hr : regular fs f = false) by (unfold regular; now rewrite Hd).
      unfold check_path at 2. rewrite Hd, Hr.
      destruct (IH ("input argument " ++ f
                    ++ " pointing to folder rather than file")%string cp)
        as [msg' [E Hm]].
      exists msg'. split; [exact E|]. rewrite Hm.
      cbn [String.append String.eqb andb]. now rewrite andb_false_r.
    + destruct (isfile fs f) eqn:Hf.
      * assert (Hr : regular fs f = true)
          by (unfold regular; now rewrite Hd, Hf).
        unfold check_path at 2. rewrite Hd, Hf, Hr. cbn [negb andb].
        destruct (IH msg (cp ++ [f])) as [msg' [E Hm]].
        exists msg'. split; [|exact Hm]. rewrite E.
        now rewrite <- app_assoc.
      * assert (Hr : regular fs f = false)
          by (unfold regular; now rewrite Hd, Hf).
        unfold check_path at 2. rewrite Hd, Hf, Hr. cbn [negb].
        destruct (IH ("invalid path argument specified " ++ f)%string cp)
          as [msg' [E Hm]].
        exists msg'. split; [exact E|]. rewrite Hm.
        cbn [String.append String.eqb andb]. now rewrite andb_false_r.
Qed.

Lemma init_outcome (class_paths paths : list string) (dest : string) :
  __init__ fs class_paths paths dest
  = if negb (List.length paths =? 2)%nat then TypeError class_paths
    else if forallb (regular fs) paths
         then Built {| dest := dest |} (class_paths ++ paths)
         else TypeError (class_paths ++ filter (regular fs) paths).
Proof.
  unfold __init__.
  destruct (negb (List.length paths =? 2)%nat); [reflexivity|].
  destruct (check_paths_fold paths "" class_paths) as [msg' [E Hm]].
  rewrite E. cbn [String.eqb andb] in Hm. rewrite Hm.
  destruct (forallb (regular fs) paths) eqn:Hall; cbn [negb]; [|reflexivity].
  f_equal. f_equal. clear -Hall.
  induction paths as [|f paths IH]; [reflexivity|].
  cbn [forallb] in Hall. apply andb_true_iff in Hall as [Hf Hall].
  cbn [filter]. rewrite Hf. f_equal. now apply IH.
Qed.

End Constructor.

(* ================================================================== *)
(** * Further properties of the code *)
(* ================================================================== *)

Import Shape.

(** ** [PathParser.parse] *)

(** X1: the first path given to a normalizer, when it is relative,
    [h/t] with [t] free of slashes, sets the base path to [h] and is
    answered with its last segment [t]. *)
Theorem first_header_relative (h t : string) :
  trimmed_path h -> has_slash t = false ->
  PathParser.parse PathParser.new (h ++ "/" ++ t)
  = Py.Ok (t, {| PathParser._base_path := Some h |}).
Proof.
  intros Hh Ht. rewrite parse_new.
  pose proof (base_of_last "" h t eq_refl Hh Ht) as Hb.
  change ("" ++ h ++ "/" ++ t)%string with (h ++ "/" ++ t)%string in Hb.
  rewrite Hb. unfold key_of.
  replace (String.length h + 1) with (String.length (h ++ "/"))
    by (rewrite length_append; reflexivity).
  rewrite <- (append_assoc h "/" t). now rewrite slice_from_append.
Qed.

Lemma first_header_relative_witness :
  trimmed_path "./root" /\ has_slash "sub1" = false
  /\ PathParser.parse PathParser.new "./root/sub1"
     = Py.Ok ("sub1", {| PathParser._base_path := Some "./root" |}).
Proof.
  split; [repeat split; discriminate|]. split; [reflexivity|].
  apply (first_header_relative "./root" "sub1");
    [repeat split; discriminate | reflexivity].
Defined.

(** X2: when the first path is absolute, [/h/t], the base path is [h]
    without the slash that opens the path, so the answer keeps a slash
    in front of the last segment: [/t]. *)
Theorem first_header_absolute (h t : string) :
  trimmed_path h -> has_slash t = false ->
  PathParser.parse PathParser.new ("/" ++ h ++ "/" ++ t)
  = Py.Ok (("/" ++ t)%string, {| PathParser._base_path := Some h |}).
Proof.
  intros Hh Ht. rewrite parse_new.
  rewrite (base_of_last "/" h t eq_refl Hh Ht).
  unfold key_of. rewrite Nat.add_1_r.
  cbn [String.append Py.slice_from]. now rewrite slice_from_append.
Qed.

Lemma first_header_absolute_witness :
  trimmed_path "home/user" /\ has_slash "sub1" = false
  /\ PathParser.parse PathParser.new "/home/user/sub1"
     = Py.Ok ("/sub1", {| PathParser._base_path := Some "home/user" |}).
Proof.
  split; [repeat split; discriminate|]. split; [reflexivity|].
  apply (first_header_absolute "home/user" "sub1");
    [repeat split; discriminate | reflexivity].
Defined.

(** X3: once the base path is set, a path is cut after as many
    characters as the base path has, plus one, whatever these characters
    are: the path is not compared with the base path. *)
Theorem later_header_cut_by_length (base before rest : string) :
  String.length before = String.length base + 1 ->
  PathParser.parse {| PathParser._base_path := Some base |} (before ++ rest)
  = Py.Ok (rest, {| PathParser._base_path := Some base |}).
Proof.
  intros H. unfold PathParser.parse. cbn [PathParser._base_path].
  now rewrite <- H, slice_from_append.
Qed.

Lemma later_header_cut_by_length_witness :
  String.length "./ABCD/" = String.length "./root" + 1
  /\ PathParser.parse Scenario.established "./ABCD/sub"
     = Py.Ok ("sub", Scenario.established).
Proof.
  split; [reflexivity|].
  apply (later_header_cut_by_length "./root" "./ABCD/" "sub"). reflexivity.
Defined.

(** ** [Comparer.parse] *)

(** X4: the keys of a parsed listing are pairwise different. *)
Theorem parse_keys_distinct (lines : list string) (d : listing) :
  parse lines = Py.Ok d -> Py.wf d.
Proof.
  intros H. destruct (loop_of_parse lines d H) as [st' [E <-]].
  unfold parse_loop in E.
  apply (for_each_invariant parse_line (fun st => Py.wf (file_content st))
           (fun s x s' => parse_line_wf s s' x) lines parse_init st' E).
  reflexivity.
Qed.

Lemma parse_keys_distinct_witness :
  parse ["./r/a:"; "x"; "./r/b:"; "./r/a:"; "y"]
  = Py.Ok [("a", ["x"; "y"]); ("b", [])]
  /\ Py.wf [("a", ["x"; "y"]); ("b", @nil string)].
Proof.
  split; [reflexivity|].
  apply (parse_keys_distinct ["./r/a:"; "x"; "./r/b:"; "./r/a:"; "y"]).
  reflexivity.
Defined.

(** X5: the parse returns a listing exactly when no line of the entry
    kind comes before the first header, and the only exception it ever
    raises is KeyError for the empty key. *)
Theorem parse_fails_only_before_header (lines : list string) :
  ((exists d, parse lines = Py.Ok d) <-> ~ entry_before_header lines)
  /\ (forall e, parse lines = Py.Raise e -> e = Py.KeyError "").
Proof.
  split; [split|].
  - intros [d H] [before [line [after [-> [Hall He]]]]].
    rewrite (parse_entry_before_header before after line Hall He) in H.
    discriminate.
  - intros Hno. destruct (parse_loop_outcome lines) as [[st' E]|Hbad].
    + exists (file_content st'). now apply parse_of_loop.
    + contradiction.
  - intros e H. destruct (parse_loop_outcome lines) as [[st' E]|Hbad].
    + rewrite (parse_of_loop lines st' E) in H. discriminate.
    + destruct Hbad as [before [line [after [-> [Hall He]]]]].
      rewrite (parse_entry_before_header before after line Hall He) in H.
      now injection H as <-.
Qed.

(** X6: the keys of a parsed listing are the keys of its header lines,
    each cut with the base path of the first header, in the order in
    which they are first seen. *)
Theorem parse_keys_first_seen (lines : list string) (d : listing) :
  parse lines = Py.Ok d -> Py.keys d = first_seen (header_keys lines).
Proof.
  intros H. destruct (loop_of_parse lines d H) as [st' [E <-]].
  now apply parse_loop_keys_init.
Qed.

Lemma parse_keys_first_seen_witness :
  parse ["./r/b:"; "x"; "./r/a:"; "./r/b:"; "y"]
  = Py.Ok [("b", ["x"; "y"]); ("a", [])]
  /\ Py.keys [("b", ["x"; "y"]); ("a", @nil string)] = ["b"; "a"].
Proof.
  split; [reflexivity|].
  apply (parse_keys_first_seen ["./r/b:"; "x"; "./r/a:"; "./r/b:"; "y"]).
  reflexivity.
Defined.

(** X7: a line that starts with [total] and is no header can be taken
    out of the input: the parse ends the same way without it. *)
Theorem summary_line_discarded (before after : list string) (line : string) :
  is_skipped line = true ->
  parse (before ++ line :: after) = parse (before ++ after).
Proof.
  unfold is_skipped. intros H. apply andb_true_iff in H as [Hh Hs].
  apply negb_true_iff in Hh. unfold parse.
  now rewrite (parse_loop_skips_summary before after line parse_init Hh Hs).
Qed.

Lemma summary_line_discarded_witness :
  is_skipped "total 2" = true
  /\ parse (["./root/sub1:"] ++ "total 2" :: ["x.txt"])
     = parse (["./root/sub1:"] ++ ["x.txt"]).
Proof.
  split; [reflexivity|].
  apply (summary_line_discarded ["./root/sub1:"] ["x.txt"] "total 2").
  reflexivity.
Defined.

(** X8: whitespace at the end of the lines does not count: the lines as
    [readlines] gives them, each with its newline, parse like the lines
    without it. *)
Theorem trailing_whitespace_ignored (w : string) (lines : list string) :
  all_space w = true ->
  parse (map (fun line => (line ++ w)%string) lines) = parse lines.
Proof.
  intros Hw. unfold parse. now rewrite (parse_loop_padded w lines Hw).
Qed.

Lemma trailing_whitespace_ignored_witness :
  all_space Py.LF = true
  /\ parse (map (fun line => (line ++ Py.LF)%string) Scenario.left_lines)
     = parse Scenario.left_lines.
Proof.
  split; [reflexivity|].
  apply (trailing_whitespace_ignored Py.LF Scenario.left_lines). reflexivity.
Defined.

(** X9: a run of entry lines appends their file names, in the order of
    the lines and with their repetitions, to the list of the current
    directory; the keys, the current directory, the normalizer and the
    other lists stay as they are. *)
Theorem entries_appended_in_order
        (lines : list string) (st : parse_state) (names : list string) :
  Forall (fun l => is_entry l = true) lines ->
  Py.lookup (file_content st) (folder_path st) = Some names ->
  exists st',
    parse_loop lines st = Py.Ok st'
    /\ folder_path st' = folder_path st
    /\ path_parser st' = path_parser st
    /\ Py.keys (file_content st') = Py.keys (file_content st)
    /\ Py.lookup (file_content st') (folder_path st)
       = Some (names ++ map file_name lines)
    /\ (forall k, k <> folder_path st ->
                  Py.lookup (file_content st') k
                  = Py.lookup (file_content st) k).
Proof. apply entries_loop. Qed.

Lemma entries_appended_in_order_witness :
  Forall (fun l => is_entry l = true) ["-rw- 1 u g 0 f.txt"; "g.txt"; "f.txt"]
  /\ Py.lookup (file_content Scenario.in_sub1)
               (folder_path Scenario.in_sub1) = Some []
  /\ exists st',
       parse_loop ["-rw- 1 u g 0 f.txt"; "g.txt"; "f.txt"] Scenario.in_sub1
       = Py.Ok st'
       /\ Py.lookup (file_content st') "sub1"
          = Some ["f.txt"; "g.txt"; "f.txt"].
Proof.
  split; [repeat constructor|]. split; [reflexivity|].
  destruct (entries_appended_in_order
              ["-rw- 1 u g 0 f.txt"; "g.txt"; "f.txt"] Scenario.in_sub1 []
              ltac:(repeat constructor) eq_refl)
    as [st' [E [_ [_ [_ [L _]]]]]].
  exists st'. split; [exact E | exact L].
Defined.

(** X10: a header line followed by entry lines only parses to the one
    directory of the header, with the file names of the entries in
    order. *)
Theorem single_block_listing (header : string) (entries : list string) :
  is_header (Py.rstrip header) = true ->
  Forall (fun l => is_entry l = true) entries ->
  parse (header :: entries)
  = Py.Ok [(key_of (base_of (header_path header)) (header_path header),
            map file_name entries)].
Proof. apply header_then_entries. Qed.

Lemma single_block_listing_witness :
  is_header (Py.rstrip "./root/sub1:") = true
  /\ Forall (fun l => is_entry l = true) ["x.txt"; "x.txt"]
  /\ parse ("./root/sub1:" :: ["x.txt"; "x.txt"])
     = Py.Ok [("sub1", ["x.txt"; "x.txt"])].
Proof.
  split; [reflexivity|]. split; [repeat constructor|].
  apply (single_block_listing "./root/sub1:" ["x.txt"; "x.txt"]);
    [reflexivity | repeat constructor].
Defined.

(** ** [Comparer.find_mismatched_left] *)

(** X11: for two non-empty mappings the output holds exactly the lines
    of the files that some left directory lists and some right directory
    matching it lacks: nothing else is reported and none of them is
    left out. *)
Theorem report_membership (left right : listing) :
  Py.wf left -> Py.wf right -> left <> [] -> right <> [] ->
  exists out,
    find_mismatched_left left right = Py.Ok out
    /\ forall s, In s out <-> reported left right s.
Proof.
  intros Wl Wr Hl Hr. exists (accumulated_report left right). split.
  - rewrite (find_mismatched_left_report left right Hl Hr).
    now rewrite pairwise_report_accumulated.
  - intros s. apply in_accumulated_report.
Qed.

Lemma report_membership_witness :
  Py.wf [("Sub", ["f"; "g"])] /\ Py.wf [("/sub", ["g"])]
  /\ [("Sub", ["f"; "g"])] <> @nil (string * list string)
  /\ [("/sub", ["g"])] <> @nil (string * list string)
  /\ exists out,
       find_mismatched_left [("Sub", ["f"; "g"])] [("/sub", ["g"])]
       = Py.Ok out
       /\ forall s, In s out
                    <-> reported [("Sub", ["f"; "g"])] [("/sub", ["g"])] s.
Proof.
  split; [reflexivity|]. split; [reflexivity|].
  split; [discriminate|]. split; [discriminate|].
  apply (report_membership [("Sub", ["f"; "g"])] [("/sub", ["g"])]);
    [reflexivity | reflexivity | discriminate | discriminate].
Defined.

(** X12: a non-empty listing compared with itself reports nothing,
    provided no two of its keys match each other. *)
Theorem self_comparison_empty (d : listing) :
  Py.wf d -> d <> [] -> folded_apart d ->
  find_mismatched_left d d = Py.Ok [].
Proof.
  intros Hwf Hne Hapart.
  rewrite (find_mismatched_left_report d d Hne Hne).
  rewrite (pairwise_report_accumulated d d Hwf Hwf).
  now rewrite accumulated_report_self.
Qed.

Lemma self_comparison_empty_witness :
  Py.wf [("sub1", ["x.txt"; "y.txt"]); ("sub2", ["z.txt"])]
  /\ [("sub1", ["x.txt"; "y.txt"]); ("sub2", ["z.txt"])]
     <> @nil (string * list string)
  /\ folded_apart [("sub1", ["x.txt"; "y.txt"]); ("sub2", ["z.txt"])]
  /\ find_mismatched_left
       [("sub1", ["x.txt"; "y.txt"]); ("sub2", ["z.txt"])]
       [("sub1", ["x.txt"; "y.txt"]); ("sub2", ["z.txt"])]
     = Py.Ok [].
Proof.
  assert (Hapart : folded_apart
                     [("sub1", ["x.txt"; "y.txt"]); ("sub2", ["z.txt"])]).
  { intros k k' [<-|[<-|[]]] [<-|[<-|[]]] H;
      try reflexivity; vm_compute in H; discriminate H. }
  split; [reflexivity|]. split; [discriminate|]. split; [exact Hapart|].
  apply (self_comparison_empty
           [("sub1", ["x.txt"; "y.txt"]); ("sub2", ["z.txt"])]);
    [reflexivity | discriminate | exact Hapart].
Defined.

(** X13: the report for a left listing made of two parts is the report
    for the first part followed by the report for the second. *)
Theorem report_of_appended_listings (left1 left2 right : listing) :
  Py.wf (left1 ++ left2) -> Py.wf right ->
  left1 <> [] -> left2 <> [] -> right <> [] ->
  find_mismatched_left (left1 ++ left2) right
  = (out1 <- find_mismatched_left left1 right ;;
     out2 <- find_mismatched_left left2 right ;;
     Py.Ok (out1 ++ out2)).
Proof.
  intros Wl Wr H1 H2 Hr.
  destruct (wf_app left1 left2 Wl) as [W1 W2].
  rewrite (find_mismatched_left_report left1 right H1 Hr).
  rewrite (find_mismatched_left_report left2 right H2 Hr).
  rewrite find_mismatched_left_report; [|now destruct left1|exact Hr].
  cbn [Py.bind].
  rewrite !pairwise_report_accumulated by assumption.
  unfold accumulated_report. now rewrite flat_map_app.
Qed.

Lemma report_of_appended_listings_witness :
  Py.wf ([("b", ["f"])] ++ [("a", ["g"])])
  /\ Py.wf [("a", @nil string); ("b", [])]
  /\ [("b", ["f"])] <> @nil (string * list string)
  /\ [("a", ["g"])] <> @nil (string * list string)
  /\ [("a", @nil string); ("b", [])] <> []
  /\ find_mismatched_left ([("b", ["f"])] ++ [("a", ["g"])])
                          [("a", []); ("b", [])]
     = Py.Ok ([report_line "b" "f"] ++ [report_line "a" "g"]).
Proof.
  split; [reflexivity|]. split; [reflexivity|]. split; [discriminate|].
  split; [discriminate|]. split; [discriminate|].
  apply (report_of_appended_listings
           [("b", ["f"])] [("a", ["g"])] [("a", []); ("b", [])]);
    [reflexivity | reflexivity | discriminate | discriminate | discriminate].
Defined.

(** X14: the engine raises exactly when one of the two mappings is
    empty, and then it raises the AssertionError of the progress bar; it
    never raises KeyError. *)
Theorem engine_fails_only_when_empty (left right : listing) :
  ((exists e, find_mismatched_left left right = Py.Raise e)
   <-> left = [] \/ right = [])
  /\ (forall e, find_mismatched_left left right = Py.Raise e ->
                e = Py.AssertionError).
Proof.
  split; [split|].
  - intros [e H]. now destruct (find_mismatched_left_raise left right e H).
  - intros H. exists Py.AssertionError.
    now apply find_mismatched_left_refused.
  - intros e H. now destruct (find_mismatched_left_raise left right e H).
Qed.

(** X15: a file name that a left directory lists several times and a
    matching right directory lacks is reported at least as many times as
    it is listed. *)
Theorem duplicates_reported_each_time
        (left right : listing) (left_key right_key f : string)
        (left_filenames right_filenames : list string) :
  Py.wf left -> Py.wf right ->
  In (left_key, left_filenames) left ->
  In (right_key, right_filenames) right ->
  same_directory left_key right_key = true ->
  ~ In f right_filenames ->
  exists out,
    find_mismatched_left left right = Py.Ok out
    /\ count_occ string_dec left_filenames f
       <= count_occ string_dec out (report_line left_key f).
Proof.
  intros Wl Wr Hl Hr Hm Hnot. exists (accumulated_report left right). split.
  - rewrite find_mismatched_left_report;
      [|intros E; rewrite E in Hl; contradiction
       |intros E; rewrite E in Hr; contradiction].
    now rewrite pairwise_report_accumulated.
  - now apply count_accumulated_report with right_key right_filenames.
Qed.

Lemma duplicates_reported_each_time_witness :
  Py.wf [("d", ["f.txt"; "f.txt"])] /\ Py.wf [("D", ["g.txt"])]
  /\ In ("d", ["f.txt"; "f.txt"]) [("d", ["f.txt"; "f.txt"])]
  /\ In ("D", ["g.txt"]) [("D", ["g.txt"])]
  /\ same_directory "d" "D" = true
  /\ ~ In "f.txt" ["g.txt"]
  /\ exists out,
       find_mismatched_left [("d", ["f.txt"; "f.txt"])] [("D", ["g.txt"])]
       = Py.Ok out
       /\ count_occ string_dec ["f.txt"; "f.txt"] "f.txt"
          <= count_occ string_dec out (report_line "d" "f.txt").
Proof.
  assert (Hnot : ~ In "f.txt" ["g.txt"])
    by (intros [H|[]]; discriminate H).
  split; [reflexivity|]. split; [reflexivity|]. split; [now left|].
  split; [now left|]. split; [reflexivity|]. split; [exact Hnot|].
  apply (duplicates_reported_each_time
           [("d", ["f.txt"; "f.txt"])] [("D", ["g.txt"])] "d" "D" "f.txt"
           ["f.txt"; "f.txt"] ["g.txt"]);
    [reflexivity | reflexivity | now left | now left | reflexivity
    | exact Hnot].
Defined.

(** ** [Comparer.does_line_start_or_end_with_strings] *)

(** X16: the test answers True exactly when the line begins with one of
    the start strings or ends with one of the end strings. *)
Theorem line_test_characterised
        (line : string) (start_strings end_strings : strings_arg) :
  does_line_start_or_end_with_strings line start_strings end_strings = true
  <-> (exists x rest, In x (as_list start_strings)
                      /\ line = (x ++ rest)%string)
      \/ (exists x before, In x (as_list end_strings)
                           /\ line = (before ++ x)%string).
Proof.
  unfold does_line_start_or_end_with_strings. cbv zeta.
  rewrite orb_true_iff, !existsb_exists. split.
  - intros [[x [Hx H]]|[x [Hx H]]].
    + left. apply startswith_iff in H as [rest E]. now exists x, rest.
    + right. apply endswith_iff in H as [before E]. now exists x, before.
  - intros [[x [rest [Hx E]]]|[x [before [Hx E]]]].
    + left. exists x. split; [exact Hx|]. apply startswith_iff. now exists rest.
    + right. exists x. split; [exact Hx|]. apply endswith_iff.
      now exists before.
Qed.

(** ** [Comparer.compare] *)

(** X17: when one of the two files holds no header and no entry (it is
    empty, or made of [total] lines only) and the other one parses, the
    comparison raises AssertionError instead of giving a report. *)
Theorem compare_refuses_empty_listing (left_lines right_lines : list string) :
  (Forall (fun l => is_skipped l = true) left_lines
   /\ exists right, parse right_lines = Py.Ok right)
  \/ (Forall (fun l => is_skipped l = true) right_lines
      /\ exists left, parse left_lines = Py.Ok left) ->
  compare_lines left_lines right_lines = Py.Raise Py.AssertionError.
Proof.
  assert (Hsk : forall lines,
             Forall (fun l => is_skipped l = true) lines ->
             parse lines = Py.Ok []).
  { intros lines H. apply summaries_only.
    eapply Forall_impl; [|exact H]. cbv beta. intros l Hl.
    unfold is_skipped in Hl. apply andb_true_iff in Hl as [Hh Hs].
    apply negb_true_iff in Hh. now split. }
  unfold compare_lines.
  intros [[Hl [right Hr]]|[Hr [left Hl]]].
  - rewrite (Hsk left_lines Hl), Hr. cbn [Py.bind].
    rewrite find_mismatched_left_refused by now left. reflexivity.
  - rewrite (Hsk right_lines Hr), Hl. cbn [Py.bind].
    rewrite find_mismatched_left_refused by now right. reflexivity.
Qed.

Lemma compare_refuses_empty_listing_witness :
  (Forall (fun l => is_skipped l = true) (@nil string)
   /\ exists right, parse Scenario.right_lines = Py.Ok right)
  /\ compare_lines [] Scenario.right_lines = Py.Raise Py.AssertionError.
Proof.
  assert (H : Forall (fun l => is_skipped l = true) (@nil string)
              /\ exists right, parse Scenario.right_lines = Py.Ok right).
  { split; [constructor|]. eexists. reflexivity. }
  split; [exact H|].
  apply (compare_refuses_empty_listing [] Scenario.right_lines).
  left. exact H.
Defined.

(** X18: a listing file compared with itself gives two empty reports,
    provided it parses to a non-empty listing no two keys of which match
    each other. *)
Theorem compare_file_with_itself (lines : list string) (d : listing) :
  parse lines = Py.Ok d -> d <> [] -> folded_apart d ->
  compare_lines lines lines = Py.Ok ([], []).
Proof.
  intros H Hne Hapart.
  assert (Hwf : Py.wf d).
  { destruct (loop_of_parse lines d H) as [st' [E <-]].
    unfold parse_loop in E.
    apply (for_each_invariant parse_line (fun st => Py.wf (file_content st))
             (fun s x s' => parse_line_wf s s' x) lines parse_init st' E).
    reflexivity. }
  unfold compare_lines. rewrite H. cbn [Py.bind].
  rewrite (find_mismatched_left_report d d Hne Hne).
  rewrite (pairwise_report_accumulated d d Hwf Hwf).
  now rewrite accumulated_report_self.
Qed.

Lemma compare_file_with_itself_witness :
  parse Scenario.left_lines
  = Py.Ok [("sub1", ["x.txt"; "y.txt"]); ("sub2", ["z.txt"])]
  /\ [("sub1", ["x.txt"; "y.txt"]); ("sub2", ["z.txt"])]
     <> @nil (string * list string)
  /\ folded_apart [("sub1", ["x.txt"; "y.txt"]); ("sub2", ["z.txt"])]
  /\ compare_lines Scenario.left_lines Scenario.left_lines = Py.Ok ([], []).
Proof.
  assert (Hapart : folded_apart
                     [("sub1", ["x.txt"; "y.txt"]); ("sub2", ["z.txt"])]).
  { intros k k' [<-|[<-|[]]] [<-|[<-|[]]] H;
      try reflexivity; vm_compute in H; discriminate H. }
  split; [reflexivity|]. split; [discriminate|]. split; [exact Hapart|].
  apply (compare_file_with_itself Scenario.left_lines
           [("sub1", ["x.txt"; "y.txt"]); ("sub2", ["z.txt"])]);
    [reflexivity | discriminate | exact Hapart].
Defined.

(** ** [Comparer.__init__] *)

(** X19: the constructor returns an instance exactly when it is given
    two paths and each of them is a file and no directory; in every
    other case it raises TypeError. *)
Theorem constructor_accepts_two_files
        (fs : filesystem) (class_paths paths : list string) (dest : string) :
  (exists self class_paths',
      __init__ fs class_paths paths dest = Built self class_paths')
  <-> List.length paths = 2 /\ forallb (regular fs) paths = true.
Proof.
  rewrite init_outcome. split.
  - intros [self [cp H]].
    destruct (Nat.eqb_spec (List.length paths) 2) as [E|E];
      cbn [negb] in H; [|discriminate].
    destruct (forallb (regular fs) paths); [now split | discriminate].
  - intros [E Hall]. rewrite E, Hall. cbn. now eexists _, _.
Qed.

(** X20: the paths that pass the test are appended to the list of the
    class, which outlives the call: a successful call appends both paths
    to what earlier instances left there, and a call that fails on one
    of two paths still leaves the other one in the list. *)
Theorem constructor_shares_paths
        (fs : filesystem) (class_paths paths : list string) (dest : string) :
  class_paths_after (__init__ fs class_paths paths dest)
  = if (List.length paths =? 2)%nat
    then class_paths ++ filter (regular fs) paths
    else class_paths.
Proof.
  rewrite init_outcome.
  destruct (List.length paths =? 2)%nat; cbn [negb]; [|reflexivity].
  destruct (forallb (regular fs) paths) eqn:Hall; [|reflexivity].
  cbn [class_paths_after]. f_equal.
  induction paths as [|f paths IH]; [reflexivity|].
  cbn [forallb] in Hall. apply andb_true_iff in Hall as [Hf Hall].
  cbn [filter]. rewrite Hf. f_equal. now apply IH.
Qed.

Section Names.

Import Comparer Spec Shape.

Lemma in_setitem {V : Type} (d : Py.dict V) (k k' : string) (v v' : V) :
  In (k', v') (Py.setitem d k v) -> (k', v') = (k, v) \/ In (k', v') d.
Proof.
  induction d as [|[k1 v1] d IH]; simpl.
  - intros [E|[]]. left. now symmetry.
  - destruct (String.eqb_spec k k1) as [->|_]; simpl.
    + intros [E|H]; [left; now symmetry | right; now right].
    + intros [E|H]; [right; now left|].
      destruct (IH H) as [E|Hin]; [now left | right; now right].
Qed.

Lemma lookup_in {V : Type} (d : Py.dict V) (k : string) (v : V) :
  Py.lookup d k = Some v -> In (k, v) d.
Proof.
  induction d as [|[k1 v1] d IH]; simpl; [discriminate|].
  destruct (String.eqb_spec k k1) as [->|_].
  - intros H. injection H as ->. now left.
  - intros H. right. now apply IH.
Qed.

Lemma file_name_no_space (line : string) :
  has_space (file_name line) = false.
Proof.
  destruct (split_last_field (entry_text line)) as [f [Hlast [Hf _]]].
  unfold file_name. now rewrite (getitem_last_last _ f "" Hlast).
Qed.

Lemma parse_line_spaceless (st st' : parse_state) (line : string) :
  parse_line st line = Py.Ok st' ->
  spaceless (file_content st) -> spaceless (file_content st').
Proof.
  unfold spaceless. intros H Hd.
  destruct (parse_line_ok st st' line H)
    as [[_ ->]|[[_ [_ ->]]|[_ [names [L ->]]]]].
  - unfold after_header. cbv zeta. cbn [file_content].
    destruct (Py.contains _ _); [exact Hd|].
    intros k ns f Hin Hf. apply in_setitem in Hin as [E|Hin].
    + injection E as -> ->. contradiction.
    + now apply Hd with k ns.
  - exact Hd.
  - cbn [file_content]. intros k ns f Hin Hf.
    apply in_setitem in Hin as [E|Hin].
    + injection E as -> ->. apply in_app_or in Hf as [Hf|[<-|[]]].
      * apply Hd with (folder_path st) names; [now apply lookup_in | exact Hf].
      * apply file_name_no_space.
    + now apply Hd with k ns.
Qed.

Lemma rstrip_by_head_kept (p : ascii -> bool) (c : ascii) (s : string) :
  p c = false -> exists r, Py.rstrip_by p (String c s) = String c r.
Proof.
  intros Hc. cbn [Py.rstrip_by].
  destruct (Py.rstrip_by p s) as [|d r].
  - rewrite Hc. now exists "".
  - now exists (String d r).
Qed.

Lemma dotted_is_header (c : ascii) (s : string) :
  c = "."%char \/ c = "/"%char ->
  is_header (Py.rstrip (String c s)) = true.
Proof.
  intros Hc. unfold Py.rstrip.
  assert (Hsp : Py.isspace c = false) by (destruct Hc; subst c; reflexivity).
  destruct (rstrip_by_head_kept Py.isspace c s Hsp) as [r ->].
  unfold is_header, does_line_start_or_end_with_strings, Py.startswith.
  cbv zeta. cbn [as_list existsb String.prefix].
  destruct Hc; subst c.
  - destruct (ascii_dec "." "."); [now destruct r | contradiction].
  - destruct (ascii_dec "." "/"); [discriminate|].
    destruct (ascii_dec "/" "/"); [now destruct r | contradiction].
Qed.

Lemma after_header_keeps_lists (st : parse_state) (line k : string)
      (names : list string) :
  Py.lookup (file_content st) k = Some names ->
  Py.lookup (file_content (after_header st line)) k = Some names.
Proof.
  intros L. unfold after_header. cbv zeta. cbn [file_content].
  unfold Py.contains.
  destruct (Py.str_in _ (Py.keys (file_content st))) eqn:E; [exact L|].
  rewrite lookup_setitem_other; [exact L|].
  intros ->. apply lookup_some_keys in L. apply str_in_In in L. congruence.
Qed.

Lemma parse_raise (lines : list string) (e : Py.exn) :
  parse lines = Py.Raise e -> e = Py.KeyError "".
Proof.
  intros H. destruct (parse_loop_outcome lines) as [[st' E]|Hbad].
  - rewrite (parse_of_loop lines st' E) in H. discriminate.
  - destruct Hbad as [before [line [after [-> [Hall He]]]]].
    rewrite (parse_entry_before_header before after line Hall He) in H.
    now injection H as <-.
Qed.

Lemma find_mismatched_left_cases (left right : listing) :
  (left <> [] /\ right <> []
   /\ find_mismatched_left left right = Py.Ok (pairwise_report left right))
  \/ ((left = [] \/ right = [])
      /\ find_mismatched_left left right = Py.Raise Py.AssertionError).
Proof.
  destruct left as [|l ls].
  { right. split; [now left|]. apply find_mismatched_left_refused. now left. }
  destruct right as [|r rs].
  { right. split; [now right|]. apply find_mismatched_left_refused. now right. }
  left. repeat split; try discriminate.
  apply find_mismatched_left_report; discriminate.
Qed.

End Names.

(** ** Further properties of the parser and of the comparison *)

(** X21: no file name of a parsed listing holds a space character: of a
    name written with spaces only the part after the last space is
    kept. *)
Theorem parsed_names_hold_no_space
        (lines : list string) (d : listing) (k f : string)
        (names : list string) :
  parse lines = Py.Ok d -> In (k, names) d -> In f names ->
  has_space f = false.
Proof.
  intros H. destruct (loop_of_parse lines d H) as [st' [E <-]].
  unfold parse_loop in E.
  apply (for_each_invariant parse_line
           (fun st => spaceless (file_content st))
           (fun s x s' => parse_line_spaceless s s' x)
           lines parse_init st' E).
  intros k' ns g [].
Qed.

Lemma parsed_names_hold_no_space_witness :
  parse ["./root/sub1:"; "my holiday photo.jpg"]
  = Py.Ok [("sub1", ["photo.jpg"])]
  /\ In ("sub1", ["photo.jpg"]) [("sub1", ["photo.jpg"])]
  /\ In "photo.jpg" ["photo.jpg"]
  /\ has_space "photo.jpg" = false.
Proof.
  split; [reflexivity|]. split; [now left|]. split; [now left|].
  apply (parsed_names_hold_no_space
           ["./root/sub1:"; "my holiday photo.jpg"]
           [("sub1", ["photo.jpg"])] "sub1" "photo.jpg" ["photo.jpg"]);
    [reflexivity | now left | now left].
Defined.

(** X22: a line that begins with a dot or a slash is always taken as a
    header, a file name such as [.bashrc] included: the turn does not
    raise; the current directory becomes the key of the line, that is
    the line, trimmed as a header is, cut after the base path (the one
    already set, or else the one derived from this line), which is the
    base path from then on; this key is registered, with an empty list
    when it is new, and no list of file names changes. *)
Theorem dotted_line_is_a_header (st : parse_state) (c : ascii) (s : string) :
  c = "."%char \/ c = "/"%char ->
  exists st',
    parse_line st (String c s) = Py.Ok st'
    /\ path_parser st'
       = {| PathParser._base_path :=
              Some match PathParser._base_path (path_parser st) with
                   | Some base => base
                   | None => base_of (header_path (String c s))
                   end |}
    /\ folder_path st'
       = Py.slice_from
           (String.length
              match PathParser._base_path (path_parser st) with
              | Some base => base
              | None => base_of (header_path (String c s))
              end + 1)
           (header_path (String c s))
    /\ Py.keys (file_content st')
       = add_key (Py.keys (file_content st)) (folder_path st')
    /\ In (folder_path st') (Py.keys (file_content st'))
    /\ Py.lookup (file_content st') (folder_path st')
       = match Py.lookup (file_content st) (folder_path st') with
         | Some names => Some names
         | None => Some []
         end
    /\ (forall k names,
           Py.lookup (file_content st) k = Some names ->
           Py.lookup (file_content st') k = Some names).
Proof.
  intros Hc. exists (after_header st (String c s)).
  split; [apply parse_line_header; now apply dotted_is_header|].
  split; [unfold after_header; cbv zeta; cbn [path_parser];
          now destruct (PathParser._base_path (path_parser st))|].
  split; [unfold after_header, key_of; cbv zeta; cbn [folder_path];
          now destruct (PathParser._base_path (path_parser st))|].
  split; [apply keys_after_header|].
  split; [apply after_header_attributed|].
  split; [|intros k names; apply after_header_keeps_lists].
  unfold after_header. cbv zeta. cbn [folder_path file_content].
  unfold Py.contains.
  destruct (Py.str_in _ (Py.keys (file_content st))) eqn:E.
  - apply str_in_In in E. destruct (lookup_keys _ _ E) as [v Hv].
    now rewrite Hv.
  - rewrite lookup_setitem_same.
    rewrite lookup_not_keys; [reflexivity|].
    intros F. apply str_in_In in F. congruence.
Qed.

Lemma dotted_line_is_a_header_witness :
  ("."%char = "."%char \/ "."%char = "/"%char)
  /\ exists st',
       parse_line Scenario.in_sub1 ".bashrc" = Py.Ok st'
       /\ path_parser st' = Scenario.established
       /\ folder_path st' = ""
       /\ Py.keys (file_content st') = ["sub1"; ""]
       /\ Py.lookup (file_content st') "" = Some []
       /\ Py.lookup (file_content st') "sub1" = Some [].
Proof.
  split; [now left|].
  destruct (dotted_line_is_a_header Scenario.in_sub1 "." "bashrc"
              (or_introl eq_refl)) as [st' [E _]].
  exists st'. split; [exact E|].
  vm_compute in E. injection E as <-. now repeat split.
Defined.

(** X23: exchanging the two inputs exchanges the two reports, and a
    comparison that raises with the inputs in one order raises the same
    exception in the other. *)
Theorem compare_lines_swapped (left_lines right_lines : list string) :
  compare_lines right_lines left_lines
  = (reports <- compare_lines left_lines right_lines ;;
     Py.Ok (snd reports, fst reports)).
Proof.
  unfold compare_lines.
  destruct (parse left_lines) as [l|el] eqn:El;
    destruct (parse right_lines) as [r|er] eqn:Er; cbn [Py.bind].
  - destruct (find_mismatched_left_cases l r) as [[Hl [Hr E1]]|[Hempty E1]].
    + rewrite E1, (find_mismatched_left_report r l Hr Hl). reflexivity.
    + rewrite E1. cbn [Py.bind].
      rewrite find_mismatched_left_refused; [reflexivity|].
      destruct Hempty; [now right | now left].
  - reflexivity.
  - now rewrite (parse_raise left_lines el El).
  - now rewrite (parse_raise left_lines el El),
                (parse_raise right_lines er Er).
Qed.
